(** * A todo list over a document store: the Express router and its fetch client

    The development follows [routes/api.js].  The router part of that file
    wraps four calls of the Prisma client ([create], [findMany], [update],
    [delete] on the [todo] model) in one [try]/[catch] each; the client part
    wraps four [fetch] calls in a [then]/[catch] chain each.

    - Part I    JSON values, the [Todo] record, the Prisma client interface.
    - Part II   The router: a state-and-exception monad and the four handlers.
    - Part III  The storage engine, as an in-memory collection.
    - Part IV   The browser side: the DOM, promises, the four client functions.
    - Sample data for the examples.
    - Part V    Theorems: the router over any engine, the engine, the four
      operations on the store, the client. *)

From Stdlib Require Import ZArith NArith Lia Bool Ascii String.
From Stdlib Require Import Sorting.Mergesort Sorting.Sorted Sorting.Permutation Orders.
From stdpp Require Import gmap strings list fin_maps.

Set Warnings "-register-all".
Local Open Scope Z_scope.

(* ===================================================================== *)
(** * Part I: data *)
(* ===================================================================== *)

(** A parsed JSON value.  An object is a finite map: a JavaScript object has
    one value per key. *)
Inductive json : Type :=
  | JNull
  | JBool (b : bool)
  | JNum (n : Z)
  | JStr (s : string)
  | JArr (l : list json)
  | JObj (m : gmap string json).

(** The single key of the bodies the client builds, [{content: ...}]. *)
Definition content_object (text : string) : json :=
  JObj {[ "content"%string := JStr text ]}.

(** The keys of a body; a body that is not an object has none. *)
Definition keys (j : json) : gset string :=
  match j with
  | JObj m => dom m
  | _ => ∅
  end.

(** The model [Todo] of the Prisma schema:
    [id String @id @default(auto()) @map("_id") @db.ObjectId],
    [content String], [date DateTime @default(now())].
    A [DateTime] is kept as milliseconds since the epoch. *)
Module Todo.
Record t : Type := mk { id : string; content : string; date : Z }.

Definition with_content (c : string) (r : t) : t :=
  {| id := id r; content := c; date := date r |}.
End Todo.

(** What a Prisma call can throw. *)
Inductive PrismaError : Type :=
  | ValidationError            (* the arguments do not fit the model *)
  | UniqueConstraint           (* P2002: the key is taken *)
  | MalformedObjectID (given : string)  (* P2023: the key is no ObjectId *)
  | RecordNotFound             (* P2025: no record under the key *)
  | Unreachable.               (* P1001: the database cannot be reached *)

(** Arguments of the calls, as the router writes them. *)
Inductive SortOrder : Type := asc | desc.

Inductive Where : Type :=
  | WhereAll                   (* [where: {}] *)
  | WhereId (key : string).    (* [where: { id: key }] *)

Record OrderBy : Type := { by_date : SortOrder }.

(** The [prisma.todo] delegate.  [DB] is the state of the database and [Env]
    what a call takes from its surroundings; a call returns the record(s) or
    the error it throws, with the state it leaves. *)
Class PrismaClient (DB Env : Type) : Type := {
  todo_create : Env -> json -> DB -> (PrismaError + Todo.t) * DB;
  todo_findMany : Env -> Where -> OrderBy -> DB -> (PrismaError + list Todo.t) * DB;
  todo_update : Env -> Where -> json -> DB -> (PrismaError + Todo.t) * DB;
  todo_delete : Env -> Where -> DB -> (PrismaError + Todo.t) * DB
}.

(* ===================================================================== *)
(** * Part II: the router *)
(* ===================================================================== *)

(** The part of an Express request the handlers read. *)
Record Request : Type := { body : json; params_id : string }.

(** What [res.send] is given. *)
Inductive Payload : Type :=
  | OfTodo (r : Todo.t)
  | OfTodos (l : list Todo.t)
  | OfError (e : PrismaError).

(** The response object: [res.status(c)] sets the code, [res.send(x)] the
    body.  A fresh response has code 200 and nothing sent. *)
Record Response : Type := { status : Z; sent : option Payload }.

Definition fresh_response : Response := {| status := 200; sent := None |}.

Definition res_status (code : Z) (res : Response) : Response :=
  {| status := code; sent := sent res |}.

Definition res_send (x : Payload) (res : Response) : Response :=
  {| status := status res; sent := Some x |}.

Section Router.
Context {DB Env : Type} `{prisma : PrismaClient DB Env}.

(** The server process: the database behind the Prisma client and the
    console. *)
Record Server : Type := { db : DB; console : list json }.

(** A computation of the server either returns or throws, and leaves a
    state. *)
Definition Srv (A : Type) : Type := Server -> (PrismaError + A) * Server.

Definition ret {A} (a : A) : Srv A := fun s => (inr a, s).

Definition bind {A B} (m : Srv A) (k : A -> Srv B) : Srv B :=
  fun s =>
    match m s with
    | (inr a, s') => k a s'
    | (inl e, s') => (inl e, s')
    end.

Definition try_catch {A} (m : Srv A) (handler : PrismaError -> Srv A) : Srv A :=
  fun s =>
    match m s with
    | (inr a, s') => (inr a, s')
    | (inl e, s') => handler e s'
    end.

Notation "'let*' x ':=' m 'in' k" := (bind m (fun x => k))
  (at level 10, x name, m at level 100, k at level 200).

Definition console_log (x : json) : Srv unit :=
  fun s => (inr tt, {| db := db s; console := console s ++ [x] |}).

(** [await prisma.todo.f(...)]: run the call on the database. *)
Definition await {A} (call : DB -> (PrismaError + A) * DB) : Srv A :=
  fun s =>
    let '(r, d) := call (db s) in
    (r, {| db := d; console := console s |}).

(** [router.post('/todo', ...)] *)
Definition post_todo (env : Env) (req : Request) (res : Response) : Srv Response :=
  try_catch
    (let* _ := console_log (body req) in
     let* todo := await (todo_create env (body req)) in
     ret (res_send (OfTodo todo) res))
    (fun err => ret (res_send (OfError err) (res_status 500 res))).

(** [router.get('/todos', ...)] *)
Definition get_todos (env : Env) (req : Request) (res : Response) : Srv Response :=
  try_catch
    (let* todos := await (todo_findMany env WhereAll {| by_date := desc |}) in
     ret (res_send (OfTodos todos) res))
    (fun err => ret (res_send (OfError err) (res_status 500 res))).

(** [router.put('/todo/:id', ...)] *)
Definition put_todo (env : Env) (req : Request) (res : Response) : Srv Response :=
  try_catch
    (let* todo := await (todo_update env (WhereId (params_id req)) (body req)) in
     ret (res_send (OfTodo todo) res))
    (fun err => ret (res_send (OfError err) (res_status 500 res))).

(** [router.delete('/todo/:id', ...)] *)
Definition delete_todo (env : Env) (req : Request) (res : Response) : Srv Response :=
  try_catch
    (let* result := await (todo_delete env (WhereId (params_id req))) in
     ret (res_send (OfTodo result) res))
    (fun err => ret (res_send (OfError err) (res_status 500 res))).

(** The four endpoints. *)
Inductive Endpoint : Type := POST_todo | GET_todos | PUT_todo | DELETE_todo.

Definition handler (ep : Endpoint) : Env -> Request -> Response -> Srv Response :=
  match ep with
  | POST_todo => post_todo
  | GET_todos => get_todos
  | PUT_todo => put_todo
  | DELETE_todo => delete_todo
  end.

(** The storage call an endpoint makes, with the record(s) it returns wrapped
    as the payload the handler would send. *)
Definition storage_call (ep : Endpoint) (env : Env) (req : Request) (d : DB)
  : (PrismaError + Payload) * DB :=
  match ep with
  | POST_todo =>
      let '(r, d') := todo_create env (body req) d in (sum_map id OfTodo r, d')
  | GET_todos =>
      let '(r, d') := todo_findMany env WhereAll {| by_date := desc |} d in
      (sum_map id OfTodos r, d')
  | PUT_todo =>
      let '(r, d') := todo_update env (WhereId (params_id req)) (body req) d in
      (sum_map id OfTodo r, d')
  | DELETE_todo =>
      let '(r, d') := todo_delete env (WhereId (params_id req)) d in
      (sum_map id OfTodo r, d')
  end.

(** What a handler is to do with the outcome of its storage call: the payload
    goes out under 200, the error under 500. *)
Definition respond (r : PrismaError + Payload) : Response :=
  match r with
  | inr x => res_send x fresh_response
  | inl err => res_send (OfError err) (res_status 500 fresh_response)
  end.

(** The console after a request: only [POST /todo] logs (the body). *)
Definition console_after (ep : Endpoint) (req : Request) (out : list json) : list json :=
  match ep with
  | POST_todo => out ++ [body req]
  | _ => out
  end.

(** Serving a request: Express hands the handler a fresh response. *)
Definition serve (ep : Endpoint) (env : Env) (req : Request) : Srv Response :=
  handler ep env req fresh_response.

End Router.

Arguments Server : clear implicits.
Arguments Srv : clear implicits.

(* ===================================================================== *)
(** * Part III: the storage engine *)
(* ===================================================================== *)

(** ** ObjectIds

    The key of the model is an ObjectId ([@db.ObjectId]): twelve bytes,
    written as twenty-four hexadecimal digits. *)

Definition is_hex_digit (c : ascii) : bool :=
  let n := N_of_ascii c in
  (((48 <=? n) && (n <=? 57)) || ((97 <=? n) && (n <=? 102))
   || ((65 <=? n) && (n <=? 70)))%N.

Fixpoint all_hex (s : string) : bool :=
  match s with
  | EmptyString => true
  | String c s' => is_hex_digit c && all_hex s'
  end.

Definition is_objectid (s : string) : bool :=
  Nat.eqb (String.length s) 24 && all_hex s.

Definition hex_digit (n : N) : ascii :=
  ascii_of_N (if (n <? 10)%N then 48 + n else 87 + n)%N.

Fixpoint hex_go (k : nat) (n : N) (acc : string) : string :=
  match k with
  | O => acc
  | S k' => hex_go k' (n / 16)%N (String (hex_digit (n mod 16)%N) acc)
  end.

(** The ObjectId the engine generates from its twelve bytes, read as a
    number. *)
Definition objectid_of (n : N) : string := hex_go 24 n EmptyString.

(** ** Validation of the [data] argument *)

Record CreateInput : Type :=
  { ci_id : option string; ci_content : string; ci_date : option Z }.

Record UpdateInput : Type :=
  { ui_content : option string; ui_date : option Z }.

(** What a call takes from its surroundings: whether the database can be
    reached, the clock ([now()]) and the bytes of the next generated key
    ([auto()]). *)
Record MongoEnv : Type := { online : bool; now : Z; auto : N }.

(** The collection of the model, in the order of insertion. *)
Abbreviation Collection := (list Todo.t) (only parsing).

Definition ids (coll : Collection) : list string := map Todo.id coll.

(** Modelled from the spec: the storage engine (the Prisma client over
    MongoDB, with the schema of the model [Todo]) is an external
    collaborator of [routes/api.js].  The definitions of this section follow
    the specification: create assigns [id] and [date] when they are absent,
    the key is unique and immutable, update overwrites [content] and [date]
    when the body has them and leaves the rest, delete removes the record and
    returns it, find-many returns every record ordered by date; a missing or
    malformed key, a body that does not fit the model, a taken key and an
    unreachable database are exceptions. *)
Section Engine.

(** The reading of an ISO-8601 timestamp, as the engine does it. *)
Variable parse_datetime : string -> option Z.

(** A field that may be absent: [Some None] when absent, [None] when present
    with a value of the wrong type. *)
Definition optional_string (v : option json) : option (option string) :=
  match v with
  | None => Some None
  | Some (JStr s) => Some (Some s)
  | Some _ => None
  end.

Definition optional_datetime (v : option json) : option (option Z) :=
  match v with
  | None => Some None
  | Some (JStr s) =>
      match parse_datetime s with
      | Some d => Some (Some d)
      | None => None
      end
  | Some _ => None
  end.

(** Modelled from the spec: the validation of the data of a create by the
    external engine.  The data is an object with a string [content], and
    optionally [id] and [date]; the record has no other field, and a field it
    does not have is refused. *)
Definition decode_create (data : json) : option CreateInput :=
  match data with
  | JObj m =>
      if bool_decide (dom m ⊆ ({[ "id"; "content"; "date" ]} : gset string))%string
      then
        match m !! "content"%string,
              optional_string (m !! "id"%string),
              optional_datetime (m !! "date"%string) with
        | Some (JStr c), Some i, Some d =>
            Some {| ci_id := i; ci_content := c; ci_date := d |}
        | _, _, _ => None
        end
      else None
  | _ => None
  end.

(** Modelled from the spec: the validation of the data of an update by the
    external engine.  The data is an object with optionally [content] and
    [date]; the key is "immutable afterward", so it is no field of an
    update. *)
Definition decode_update (data : json) : option UpdateInput :=
  match data with
  | JObj m =>
      if bool_decide (dom m ⊆ ({[ "content"; "date" ]} : gset string))%string
      then
        match optional_string (m !! "content"%string),
              optional_datetime (m !! "date"%string) with
        | Some c, Some d => Some {| ui_content := c; ui_date := d |}
        | _, _ => None
        end
      else None
  | _ => None
  end.

Definition has_id (key : string) (r : Todo.t) : bool := String.eqb (Todo.id r) key.

Definition find_by_id (key : string) (coll : Collection) : option Todo.t :=
  List.find (has_id key) coll.

(** Replace the record under [key] (the first, should there be several). *)
Fixpoint replace_by_id (key : string) (r' : Todo.t) (coll : Collection) : Collection :=
  match coll with
  | [] => []
  | r :: rest =>
      if has_id key r then r' :: rest else r :: replace_by_id key r' rest
  end.

(** Remove the record under [key] (the first, should there be several). *)
Fixpoint remove_by_id (key : string) (coll : Collection) : Collection :=
  match coll with
  | [] => []
  | r :: rest => if has_id key r then rest else r :: remove_by_id key rest
  end.

Definition apply_update (ui : UpdateInput) (r : Todo.t) : Todo.t :=
  {| Todo.id := Todo.id r;
     Todo.content := default (Todo.content r) (ui_content ui);
     Todo.date := default (Todo.date r) (ui_date ui) |}.

(** ** Ordering *)

Definition date_leb (o : SortOrder) (a b : Todo.t) : bool :=
  match o with
  | asc => Todo.date a <=? Todo.date b
  | desc => Todo.date b <=? Todo.date a
  end.

Fixpoint insert_by (leb : Todo.t -> Todo.t -> bool) (x : Todo.t) (l : list Todo.t)
  : list Todo.t :=
  match l with
  | [] => [x]
  | y :: l' => if leb x y then x :: l else y :: insert_by leb x l'
  end.

Fixpoint sort_by (leb : Todo.t -> Todo.t -> bool) (l : list Todo.t) : list Todo.t :=
  match l with
  | [] => []
  | x :: l' => insert_by leb x (sort_by leb l')
  end.

(** Newest first: every record is at least as recent as those after it. *)
Definition newest_first (l : list Todo.t) : Prop :=
  StronglySorted (fun a b => Todo.date b <= Todo.date a) l.

Definition matches (w : Where) (r : Todo.t) : bool :=
  match w with
  | WhereAll => true
  | WhereId key => has_id key r
  end.

(** A key given in a [where] has to be an ObjectId. *)
Definition check_where (w : Where) : option PrismaError :=
  match w with
  | WhereAll => None
  | WhereId key => if is_objectid key then None else Some (MalformedObjectID key)
  end.

(** Every key of the collection is an ObjectId and belongs to one record. *)
Definition well_keyed (coll : Collection) : Prop :=
  NoDup (ids coll) /\ Forall (fun r => is_objectid (Todo.id r) = true) coll.

(** ** The four calls *)

(** Modelled from the spec: [prisma.todo.create] of the external engine.
    "Caller is expected to supply at least content; id/date are assigned by
    the storage engine when absent.  Result: the newly created record
    including assigned id and date.  Failure: any storage-engine exception
    (e.g., malformed document).  Side effect: one new persisted record."  The
    key is unique: a key that is taken is a constraint violation. *)
Definition mongo_create (env : MongoEnv) (data : json) (coll : Collection)
  : (PrismaError + Todo.t) * Collection :=
  match decode_create data with
  | None => (inl ValidationError, coll)
  | Some ci =>
      if negb (online env) then (inl Unreachable, coll) else
      let key := default (objectid_of (auto env)) (ci_id ci) in
      if negb (is_objectid key) then (inl (MalformedObjectID key), coll) else
      if existsb (has_id key) coll then (inl UniqueConstraint, coll) else
      let r := {| Todo.id := key;
                  Todo.content := ci_content ci;
                  Todo.date := default (now env) (ci_date ci) |} in
      (inr r, coll ++ [r])
  end.

(** Modelled from the spec: [prisma.todo.findMany] of the external engine.
    "Result: all records, ordered by date descending (most recent first);
    ties in date broken by storage-engine default order (unspecified)."  Here
    records of one date keep the order of the collection. *)
Definition mongo_findMany (env : MongoEnv) (w : Where) (o : OrderBy) (coll : Collection)
  : (PrismaError + list Todo.t) * Collection :=
  if negb (online env) then (inl Unreachable, coll) else
  match check_where w with
  | Some e => (inl e, coll)
  | None => (inr (sort_by (date_leb (by_date o)) (List.filter (matches w) coll)), coll)
  end.

(** Modelled from the spec: [prisma.todo.update] of the external engine.
    "If id matches no record, or id is malformed for the engine's key format,
    the storage engine raises.  Side effect: the matched record's fields are
    replaced per merge semantics with body's fields; unspecified fields of
    body are left untouched, but content/date are otherwise overwritten if
    present in body."  Result: the record as stored after the merge. *)
Definition mongo_update (env : MongoEnv) (w : Where) (data : json) (coll : Collection)
  : (PrismaError + Todo.t) * Collection :=
  match w, decode_update data with
  | WhereAll, _ => (inl ValidationError, coll)
  | WhereId _, None => (inl ValidationError, coll)
  | WhereId key, Some ui =>
      if negb (online env) then (inl Unreachable, coll) else
      if negb (is_objectid key) then (inl (MalformedObjectID key), coll) else
      match find_by_id key coll with
      | None => (inl RecordNotFound, coll)
      | Some r =>
          let r' := apply_update ui r in
          (inr r', replace_by_id key r' coll)
      end
  end.

(** Modelled from the spec: [prisma.todo.delete] of the external engine.
    "Result: the deleted record's pre-deletion snapshot.  Failure:
    non-existent or malformed id -> storage exception.  Side effect: record
    permanently removed." *)
Definition mongo_delete (env : MongoEnv) (w : Where) (coll : Collection)
  : (PrismaError + Todo.t) * Collection :=
  match w with
  | WhereAll => (inl ValidationError, coll)
  | WhereId key =>
      if negb (online env) then (inl Unreachable, coll) else
      if negb (is_objectid key) then (inl (MalformedObjectID key), coll) else
      match find_by_id key coll with
      | None => (inl RecordNotFound, coll)
      | Some r => (inr r, remove_by_id key coll)
      end
  end.

#[export] Instance mongo : PrismaClient Collection MongoEnv := {
  todo_create := mongo_create;
  todo_findMany := mongo_findMany;
  todo_update := mongo_update;
  todo_delete := mongo_delete
}.

(** The router over this engine. *)
Definition run (ep : Endpoint) (env : MongoEnv) (req : Request) (s : Server Collection)
  : (PrismaError + Response) * Server Collection :=
  serve ep env req s.

(** ** Requests in sequence *)

(** One request to the router. *)
Record Call : Type := { endpoint : Endpoint; env_of : MongoEnv; request : Request }.

Definition step (c : Call) (s : Server Collection) : Server Collection :=
  snd (run (endpoint c) (env_of c) (request c) s).

Definition initial : Server Collection := {| db := []; console := [] |}.

(** The states the server reaches from the empty collection. *)
Inductive reachable : Server Collection -> Prop :=
  | reachable_initial : reachable initial
  | reachable_step c s : reachable s -> reachable (step c s).

(** What one request may do to the collection: a create leaves it or appends
    one record under a key no record had; a list leaves it; an update keeps
    every record in its place under its key; a delete leaves a sub-collection
    of unchanged records. *)
Definition keys_kept (ep : Endpoint) (before after : Collection) : Prop :=
  match ep with
  | POST_todo =>
      after = before \/ exists r, after = before ++ [r] /\ Todo.id r ∉ ids before
  | GET_todos => after = before
  | PUT_todo => ids after = ids before
  | DELETE_todo => sublist after before
  end.

End Engine.

(* ===================================================================== *)
(** * Part IV: the browser side *)
(* ===================================================================== *)

(** ** The DOM

    An element with what the client reads and writes: its [data-*]
    attributes, its [value] (of an input), its [style.display], and what
    [querySelector] finds below it for each selector (nothing when no
    element matches). *)
Inductive Element : Type := mkElement {
  dataset : gmap string string;
  value : string;
  display : string;
  query : gmap string Element
}.

(** [el.querySelector(selector)]; [None] is [null]. *)
Definition querySelector (el : Element) (selector : string) : option Element :=
  query el !! selector.

(** [el.querySelector(selector).style.display = v], seen from [el]: what
    [selector] finds has the display [v] from then on.  [query] keeps what
    each selector finds apart, so this says nothing on what another selector
    that finds the same element shows. *)
Definition with_display (selector v : string) (el : Element) : Element :=
  match query el !! selector with
  | Some target =>
      mkElement (dataset el) (value el) (display el)
        (<[selector := mkElement (dataset target) (value target) v (query target)]>
           (query el))
  | None => el
  end.

(** ** Exceptions and values of the client *)

Inductive Exn : Type :=
  | Error (message : string)       (* [new Error(message)] *)
  | TypeError (message : string)   (* a property of [null] *)
  | SyntaxError                    (* [response.json()] on a body that is no JSON *)
  | NetworkFailure (reason : string).  (* [fetch] could not complete *)

Inductive Value : Type :=
  | VUndefined
  | VJson (j : json).

(** ** fetch *)

(** The arguments of a [fetch].  The body is JSON text
    ([JSON.stringify(...)]), kept as the value it denotes. *)
Module Fetch.
Record Request : Type := {
  url : string;
  method : string;
  headers : list (string * string);
  body : option json
}.

(** A response: its status code and what [response.json()] parses ([None]
    when the body is no JSON). *)
Record Response : Type := { status : Z; parsed : option json }.

(** [response.ok]: the status is in the range 200-299. *)
Definition ok (r : Response) : bool := (200 <=? status r) && (status r <=? 299).

Inductive Outcome : Type :=
  | Fails (e : Exn)
  | Responds (r : Response).
End Fetch.

(** ** Promises *)

(** The page: the document, the console and the requests sent so far. *)
Record Browser : Type := {
  document : Element;
  logged : list Exn;
  requests : list Fetch.Request
}.

Inductive Settled (A : Type) : Type :=
  | Fulfilled (a : A)
  | Rejected (e : Exn).
Arguments Fulfilled {A} a.
Arguments Rejected {A} e.

(** A promise, run to its settlement on a page. *)
Definition Promise (A : Type) : Type := Browser -> Settled A * Browser.

Definition resolve {A} (a : A) : Promise A := fun w => (Fulfilled a, w).

Definition reject {A} (e : Exn) : Promise A := fun w => (Rejected e, w).

(** [p.then(f)], and sequencing inside an [async] function. *)
Definition then_ {A B} (p : Promise A) (f : A -> Promise B) : Promise B :=
  fun w =>
    match p w with
    | (Fulfilled a, w') => f a w'
    | (Rejected e, w') => (Rejected e, w')
    end.

(** [p.catch(g)] *)
Definition catch_ {A} (p : Promise A) (g : Exn -> Promise A) : Promise A :=
  fun w =>
    match p w with
    | (Fulfilled a, w') => (Fulfilled a, w')
    | (Rejected e, w') => g e w'
    end.

(** The page after an error was logged. *)
Definition logged_error (err : Exn) (w : Browser) : Browser :=
  {| document := document w; logged := logged w ++ [err]; requests := requests w |}.

(** [console.log(err)]; its value is [undefined]. *)
Definition console_log_err (err : Exn) : Promise Value :=
  fun w => (Fulfilled VUndefined, logged_error err w).

(** The page after the display of what [selector] finds was set. *)
Definition displayed (selector v : string) (w : Browser) : Browser :=
  {| document := with_display selector v (document w);
     logged := logged w; requests := requests w |}.

(** [document.querySelector(selector).style.display = v]; a [TypeError] when
    the selector matches nothing. *)
Definition set_display (selector v : string) : Promise unit :=
  fun w =>
    match querySelector (document w) selector with
    | Some _ => (Fulfilled tt, displayed selector v w)
    | None =>
        (Rejected (TypeError "Cannot read properties of null (reading 'style')"), w)
    end.

(** [el.value] of what [querySelector] returned. *)
Definition value_of (el : option Element) : Promise string :=
  match el with
  | Some input => resolve (value input)
  | None => reject (TypeError "Cannot read properties of null (reading 'value')")
  end.

(** ['/todo/' + x]: an undefined [x] is written out. *)
Definition concat_undefined (prefix : string) (x : option string) : string :=
  (prefix +:+ default "undefined" x)%string.

(** [response.json()] *)
Definition response_json (r : Fetch.Response) : Promise Value :=
  match Fetch.parsed r with
  | Some j => resolve (VJson j)
  | None => reject SyntaxError
  end.

Definition json_headers : list (string * string) :=
  [("Content-Type", "application/json")]%string.

(** The page after a request went out. *)
Definition sent_request (req : Fetch.Request) (w : Browser) : Browser :=
  {| document := document w; logged := logged w; requests := requests w ++ [req] |}.

(** The request of [readData]. *)
Definition todos_request : Fetch.Request :=
  {| Fetch.url := "/todos"; Fetch.method := "GET";
     Fetch.headers := []; Fetch.body := None |}.

(** The request of [createData]: [POST /todo] with the body
    [JSON.stringify({ content: textInput })]. *)
Definition create_request (textInput : string) : Fetch.Request :=
  {| Fetch.url := "/todo"; Fetch.method := "POST";
     Fetch.headers := json_headers;
     Fetch.body := Some (content_object textInput) |}.

(** The request of [updateData]: [PUT /todo/<todo.dataset.id>] with the body
    [JSON.stringify({ content: text })], [text] being the value of the input
    of the item. *)
Definition update_request (todo : Element) (text : string) : Fetch.Request :=
  {| Fetch.url := concat_undefined "/todo/" (dataset todo !! "id"%string);
     Fetch.method := "PUT";
     Fetch.headers := json_headers;
     Fetch.body := Some (content_object text) |}.

(** The request of [deleteData]: [DELETE /todo/<todo.dataset.id>], no body. *)
Definition delete_request (todo : Element) : Fetch.Request :=
  {| Fetch.url := concat_undefined "/todo/" (dataset todo !! "id"%string);
     Fetch.method := "DELETE";
     Fetch.headers := json_headers;
     Fetch.body := None |}.

(** A write failed: the network failed or the status is not a success. *)
Definition write_failed (o : Fetch.Outcome) : Prop :=
  match o with
  | Fetch.Fails _ => True
  | Fetch.Responds r => Fetch.ok r = false
  end.

(** A read failed: as a write, or the body of the response is no JSON. *)
Definition read_failed (o : Fetch.Outcome) : Prop :=
  match o with
  | Fetch.Fails _ => True
  | Fetch.Responds r => Fetch.ok r = false \/ Fetch.parsed r = None
  end.

(** How a request settles for the caller: with the parsed body when the
    response is a success, else with [otherwise]. *)
Definition settles_as (o : Fetch.Outcome) (otherwise v : Value) : Prop :=
  match o with
  | Fetch.Fails _ => v = otherwise
  | Fetch.Responds r =>
      if Fetch.ok r then
        match Fetch.parsed r with
        | Some j => v = VJson j
        | None => v = otherwise
        end
      else v = otherwise
  end.

(** The requests a promise sends on a page. *)
Definition sent_by {A} (p : Promise A) (w : Browser) : list Fetch.Request :=
  drop (length (requests w)) (requests (snd (p w))).

Section Client.

(** The network and the server behind it: what becomes of each request. *)
Variable network : Fetch.Request -> Fetch.Outcome.

Definition fetch (req : Fetch.Request) : Promise Fetch.Response :=
  fun w =>
    match network req with
    | Fetch.Fails e => (Rejected e, sent_request req w)
    | Fetch.Responds r => (Fulfilled r, sent_request req w)
    end.

(** [createData]: given a string, add it to the database. *)
Definition createData (textInput : string) : Promise Value :=
  catch_
    (then_
       (fetch (create_request textInput))
       (fun response =>
          if negb (Fetch.ok response) then reject (Error "Failed to create todo")
          else response_json response))
    (fun err => console_log_err err).

(** [readData]: retrieve a list of all items from the database. *)
Definition readData : Promise Value :=
  catch_
    (then_
       (fetch todos_request)
       (fun response =>
          if negb (Fetch.ok response) then
            then_ (set_display "#notices" "block") (fun _ => resolve (VJson (JArr [])))
          else response_json response))
    (fun err =>
       then_ (console_log_err err) (fun _ =>
       then_ (set_display "#notices" "block") (fun _ =>
       resolve (VJson (JArr []))))).

(** [updateData]: given an existing item, update the content for it in the
    database.  The arguments of [fetch] are evaluated before the call:
    [todo.querySelector('form input').value] throws when there is no such
    input, and the [async] function then returns a rejected promise. *)
Definition updateData (todo : Element) : Promise Value :=
  then_ (value_of (querySelector todo "form input")) (fun text =>
  catch_
    (then_
       (fetch (update_request todo text))
       (fun response =>
          if negb (Fetch.ok response) then reject (Error "Failed to update todo")
          else response_json response))
    (fun err => console_log_err err)).

(** [deleteData]: given an existing item, remove it from the database. *)
Definition deleteData (todo : Element) : Promise Value :=
  catch_
    (then_
       (fetch (delete_request todo))
       (fun response =>
          if negb (Fetch.ok response) then reject (Error "Failed to delete todo")
          else response_json response))
    (fun err => console_log_err err).

(** The three operations that write. *)
Inductive WriteCall : Type :=
  | Create (textInput : string)
  | Update (todo : Element)
  | Delete (todo : Element).

Definition write (c : WriteCall) : Promise Value :=
  match c with
  | Create textInput => createData textInput
  | Update todo => updateData todo
  | Delete todo => deleteData todo
  end.

End Client.


(* ===================================================================== *)
(** * Calls in sequence *)
(* ===================================================================== *)

Section RouterSequences.
Context {DB Env : Type} `{prisma : PrismaClient DB Env}.

(** Requests served one after the other, over any engine. *)
Fixpoint serve_all (calls : list (Endpoint * Env * Request)) (s : Server DB)
  : Server DB :=
  match calls with
  | [] => s
  | (ep, env, req) :: rest => serve_all rest (snd (serve ep env req s))
  end.

End RouterSequences.

(** The bodies of the POST requests among [calls], in their order. *)
Definition posted {Env : Type} (calls : list (Endpoint * Env * Request)) : list json :=
  flat_map
    (fun '(ep, _, req) =>
       match ep with
       | POST_todo => [body req]
       | _ => []
       end)
    calls.

(** A call of one of the four client functions. *)
Inductive ClientCall : Type :=
  | Read
  | Written (c : WriteCall).

Definition client_call (network : Fetch.Request -> Fetch.Outcome) (c : ClientCall)
  : Promise Value :=
  match c with
  | Read => readData network
  | Written c => write network c
  end.

(** Client calls one after the other, each with what the network does at its
    time; the page each leaves is the page of the next. *)
Fixpoint perform (calls : list ((Fetch.Request -> Fetch.Outcome) * ClientCall))
  (w : Browser) : Browser :=
  match calls with
  | [] => w
  | (network, c) :: rest => perform rest (snd (client_call network c w))
  end.

(** [style.display] of the "#notices" element of the page, if there is one. *)
Definition notice_display (w : Browser) : option string :=
  display <$> querySelector (document w) "#notices".

(** The message of the error a write throws on a status that is no
    success. *)
Definition write_message (c : WriteCall) : string :=
  match c with
  | Create _ => "Failed to create todo"
  | Update _ => "Failed to update todo"
  | Delete _ => "Failed to delete todo"
  end.

(** What reaches the [catch] handler of a write, for each outcome of its
    request: nothing when the response is a success with a JSON body. *)
Definition caught_by_write (c : WriteCall) (o : Fetch.Outcome) : list Exn :=
  match o with
  | Fetch.Fails e => [e]
  | Fetch.Responds r =>
      if Fetch.ok r then
        match Fetch.parsed r with
        | Some _ => []
        | None => [SyntaxError]
        end
      else [Error (write_message c)]
  end.

(** What reaches the [catch] handler of [readData] on a page with the
    notice: a status that is no success is dealt with before, in [then]. *)
Definition caught_by_read (o : Fetch.Outcome) : list Exn :=
  match o with
  | Fetch.Fails e => [e]
  | Fetch.Responds r =>
      if Fetch.ok r then
        match Fetch.parsed r with
        | Some _ => []
        | None => [SyntaxError]
        end
      else []
  end.
(* ===================================================================== *)
(** * Sample data *)
(* ===================================================================== *)

(** A reading of timestamps that knows two of them. *)
Definition sample_datetime (s : string) : option Z :=
  if String.eqb s "2024-01-01T00:00:00.000Z" then Some 1704067200000
  else if String.eqb s "1970-01-01T00:00:00.000Z" then Some 0
  else None.

Definition up (t : Z) (n : N) : MongoEnv := {| online := true; now := t; auto := n |}.

Definition down : MongoEnv := {| online := false; now := 0; auto := 0 |}.

Definition empty_request : Request := {| body := JNull; params_id := "" |}.

Definition post_of (text : string) : Request :=
  {| body := content_object text; params_id := "" |}.

Definition put_of (key text : string) : Request :=
  {| body := content_object text; params_id := key |}.

Definition delete_of (key : string) : Request := {| body := JNull; params_id := key |}.

(** Two creations in sequence, from the empty collection. *)
Definition one_todo : Server Collection :=
  step sample_datetime
    {| endpoint := POST_todo; env_of := up 100 1; request := post_of "buy milk" |}
    initial.

Definition two_todos : Server Collection :=
  step sample_datetime
    {| endpoint := POST_todo; env_of := up 200 2; request := post_of "walk the dog" |}
    one_todo.

Definition milk : Todo.t :=
  {| Todo.id := "000000000000000000000001"; Todo.content := "buy milk"; Todo.date := 100 |}.

Definition dog : Todo.t :=
  {| Todo.id := "000000000000000000000002"; Todo.content := "walk the dog";
     Todo.date := 200 |}.

(** A page with a hidden notice, an item of the list, and an item that lost
    its form. *)
Definition hidden_notice : Element := mkElement ∅ "" "none" ∅.

Definition page : Browser :=
  {| document := mkElement ∅ "" "" {[ "#notices"%string := hidden_notice ]};
     logged := []; requests := [] |}.

Definition item : Element :=
  mkElement {[ "id"%string := "000000000000000000000001"%string ]} "" ""
    {[ "form input"%string := mkElement ∅ "buy oat milk" "" ∅ ]}.

Definition bare_item : Element :=
  mkElement {[ "id"%string := "000000000000000000000001"%string ]} "" "" ∅.

Definition offline : Fetch.Request -> Fetch.Outcome :=
  fun _ => Fetch.Fails (NetworkFailure "Failed to fetch").

Definition failing_server : Fetch.Request -> Fetch.Outcome :=
  fun _ => Fetch.Responds {| Fetch.status := 500; Fetch.parsed := Some (JObj ∅) |}.


(** A server that answers every request with 200 and the empty list, and the
    page after a read that failed. *)
Definition working_server : Fetch.Request -> Fetch.Outcome :=
  fun _ => Fetch.Responds {| Fetch.status := 200; Fetch.parsed := Some (JArr []) |}.

Definition page_with_notice_shown : Browser := snd (readData offline page).

(** The record [milk] as the router writes it, a server that answers every
    request with 200 and the list of that one record, and a server that
    answers with 200 and an empty object. *)
Definition milk_json : json :=
  JObj {[ "id"%string := JStr "000000000000000000000001";
          "content"%string := JStr "buy milk";
          "date"%string := JStr "1970-01-01T00:00:00.100Z" ]}.

Definition listing_server : Fetch.Request -> Fetch.Outcome :=
  fun _ => Fetch.Responds {| Fetch.status := 200;
                             Fetch.parsed := Some (JArr [milk_json]) |}.

Definition object_server : Fetch.Request -> Fetch.Outcome :=
  fun _ => Fetch.Responds {| Fetch.status := 200; Fetch.parsed := Some (JObj ∅) |}.
(* ===================================================================== *)
(** * Part V: theorems *)
(* ===================================================================== *)

(** ** The router over any storage engine *)

Section RouterFacts.
Context {DB Env : Type} `{prisma : PrismaClient DB Env}.

(** Every handler returns: its response is determined by the outcome of the
    one storage call it makes, and no exception leaves it. *)
Lemma serve_unfold (ep : Endpoint) (env : Env) (req : Request) (s : Server DB) :
  serve ep env req s =
    (inr (respond (fst (storage_call ep env req (db s)))),
     {| db := snd (storage_call ep env req (db s));
        console := console_after ep req (console s) |}).
Proof.
  destruct s as [d out]; destruct ep;
    unfold serve, handler, storage_call, post_todo, get_todos, put_todo,
      delete_todo, try_catch, bind, await, console_log, ret; cbn.
  - destruct (todo_create env (body req) d) as [[e|r] d']; reflexivity.
  - destruct (todo_findMany env WhereAll {| by_date := desc |} d) as [[e|r] d'];
      reflexivity.
  - destruct (todo_update env (WhereId (params_id req)) (body req) d) as [[e|r] d'];
      reflexivity.
  - destruct (todo_delete env (WhereId (params_id req)) d) as [[e|r] d']; reflexivity.
Qed.

End RouterFacts.

(** C1: on each of the four endpoints, for every request and every state of
    every storage engine, when the storage call throws an error the handler
    catches it: it returns normally (no exception leaves it), and the response
    it returns has status 500 and the thrown error itself as its body. *)
Theorem storage_exception_is_status_500
  {DB Env : Type} `{prisma : PrismaClient DB Env}
  (ep : Endpoint) (env : Env) (req : Request) (s : Server DB) (err : PrismaError) :
  fst (storage_call ep env req (db s)) = inl err ->
  exists s' : Server DB,
    serve ep env req s = (inr {| status := 500; sent := Some (OfError err) |}, s').
Proof.
  intros Hthrow. rewrite serve_unfold, Hthrow. cbn. eauto.
Qed.

Lemma storage_exception_is_status_500_witness :
  fst (storage_call (prisma := mongo sample_datetime) PUT_todo (up 5 1)
         (put_of "undefined" "x") (db initial))
    = inl (MalformedObjectID "undefined")
  /\ exists s' : Server Collection,
       serve (prisma := mongo sample_datetime) PUT_todo (up 5 1)
         (put_of "undefined" "x") initial
       = (inr {| status := 500;
                 sent := Some (OfError (MalformedObjectID "undefined")) |}, s').
Proof.
  split.
  - vm_compute. reflexivity.
  - apply (storage_exception_is_status_500 (prisma := mongo sample_datetime)).
    vm_compute. reflexivity.
Defined.

(** ** ObjectIds *)

Lemma hex_digit_is_hex (n : N) : (n < 16)%N -> is_hex_digit (hex_digit n) = true.
Proof.
  intros Hn. unfold is_hex_digit, hex_digit.
  destruct (n <? 10)%N eqn:Hlt.
  - apply N.ltb_lt in Hlt. rewrite N_ascii_embedding by lia.
    apply orb_true_iff; left. apply orb_true_iff; left.
    apply andb_true_iff; split; apply N.leb_le; lia.
  - apply N.ltb_ge in Hlt. rewrite N_ascii_embedding by lia.
    apply orb_true_iff; left. apply orb_true_iff; right.
    apply andb_true_iff; split; apply N.leb_le; lia.
Qed.

Lemma hex_go_length (k : nat) : forall (n : N) (acc : string),
  String.length (hex_go k n acc) = (k + String.length acc)%nat.
Proof.
  induction k as [|k IH]; intros n acc; cbn [hex_go]; [reflexivity|].
  rewrite IH. cbn [String.length]. lia.
Qed.

Lemma hex_go_all_hex (k : nat) : forall (n : N) (acc : string),
  all_hex acc = true -> all_hex (hex_go k n acc) = true.
Proof.
  induction k as [|k IH]; intros n acc Hacc; cbn [hex_go]; [assumption|].
  apply IH. cbn [all_hex]. rewrite Hacc, hex_digit_is_hex; [reflexivity|].
  apply N.mod_lt. discriminate.
Qed.

(** A generated key is an ObjectId. *)
Lemma objectid_of_is_objectid (n : N) : is_objectid (objectid_of n) = true.
Proof.
  unfold is_objectid, objectid_of.
  rewrite hex_go_length, hex_go_all_hex by reflexivity. reflexivity.
Qed.

(** ** Ordering *)

Section Sorting.
Variable leb : Todo.t -> Todo.t -> bool.
Hypothesis leb_total : forall a b, leb a b = true \/ leb b a = true.
Hypothesis leb_trans : forall a b c, leb a b = true -> leb b c = true -> leb a c = true.

Lemma insert_by_Permutation (x : Todo.t) (l : list Todo.t) :
  Permutation (insert_by leb x l) (x :: l).
Proof.
  induction l as [|y l IH]; cbn; [reflexivity|].
  destruct (leb x y); [reflexivity|].
  rewrite IH. apply perm_swap.
Qed.

Lemma sort_by_Permutation (l : list Todo.t) : Permutation (sort_by leb l) l.
Proof.
  induction l as [|x l IH]; cbn; [reflexivity|].
  rewrite insert_by_Permutation. now constructor.
Qed.

Lemma insert_by_sorted (x : Todo.t) (l : list Todo.t) :
  StronglySorted (fun a b => leb a b = true) l ->
  StronglySorted (fun a b => leb a b = true) (insert_by leb x l).
Proof.
  induction 1 as [|y l Hsorted IH Hall]; cbn.
  - repeat constructor.
  - destruct (leb x y) eqn:Hxy.
    + constructor; [now constructor|].
      constructor; [assumption|].
      eapply Forall_impl; [exact Hall|]. intros z Hyz. cbn in Hyz. eauto.
    + constructor; [assumption|].
      rewrite insert_by_Permutation. constructor; [|assumption].
      destruct (leb_total x y) as [H|H]; congruence.
Qed.

Lemma sort_by_sorted (l : list Todo.t) :
  StronglySorted (fun a b => leb a b = true) (sort_by leb l).
Proof.
  induction l as [|x l IH]; cbn; [constructor|]. now apply insert_by_sorted.
Qed.

End Sorting.

Lemma date_leb_total (o : SortOrder) (a b : Todo.t) :
  date_leb o a b = true \/ date_leb o b a = true.
Proof. destruct o; cbn; rewrite !Z.leb_le; lia. Qed.

Lemma date_leb_trans (o : SortOrder) (a b c : Todo.t) :
  date_leb o a b = true -> date_leb o b c = true -> date_leb o a c = true.
Proof. destruct o; cbn; rewrite !Z.leb_le; lia. Qed.

Lemma sort_by_desc_newest_first (l : list Todo.t) :
  newest_first (sort_by (date_leb desc) l).
Proof.
  unfold newest_first.
  pose proof (sort_by_sorted _ (date_leb_total desc) (date_leb_trans desc) l) as H.
  induction H as [|x l' Hsorted IH Hall]; constructor; [assumption|].
  eapply Forall_impl; [exact Hall|].
  intros b Hb. cbn in Hb. now apply Z.leb_le.
Qed.

(** ** The collection *)

Lemma has_id_true (key : string) (r : Todo.t) :
  has_id key r = true <-> Todo.id r = key.
Proof. unfold has_id. apply String.eqb_eq. Qed.

Lemma has_id_false (key : string) (r : Todo.t) :
  has_id key r = false <-> Todo.id r <> key.
Proof. unfold has_id. apply String.eqb_neq. Qed.

Lemma find_by_id_Some (key : string) (coll : Collection) (r : Todo.t) :
  find_by_id key coll = Some r -> r ∈ coll /\ Todo.id r = key.
Proof.
  unfold find_by_id. intros H. apply find_some in H as [Hin Hid].
  split; [now apply list_elem_of_In | now apply has_id_true].
Qed.

Lemma find_by_id_None (key : string) (coll : Collection) :
  find_by_id key coll = None <-> key ∉ ids coll.
Proof.
  unfold find_by_id, ids. induction coll as [|r coll IH]; cbn.
  - split; [intros _; apply not_elem_of_nil | reflexivity].
  - rewrite not_elem_of_cons. destruct (has_id key r) eqn:Hr.
    + apply has_id_true in Hr. split; [discriminate | intros [Hne _]; congruence].
    + apply has_id_false in Hr. rewrite IH. split; [intros ?; split; congruence | tauto].
Qed.

Lemma existsb_has_id (key : string) (coll : Collection) :
  existsb (has_id key) coll = false <-> key ∉ ids coll.
Proof.
  unfold ids. induction coll as [|r coll IH]; cbn.
  - split; [intros _; apply not_elem_of_nil | reflexivity].
  - rewrite not_elem_of_cons, orb_false_iff, IH, has_id_false.
    split; intros [H1 H2]; split; congruence.
Qed.

(** With unique keys, the record a key finds is the record that has it. *)
Lemma find_by_id_elem (coll : Collection) (r : Todo.t) :
  NoDup (ids coll) -> r ∈ coll -> find_by_id (Todo.id r) coll = Some r.
Proof.
  unfold find_by_id, ids. induction coll as [|x coll IH]; cbn; intros Hnd Hin.
  - now apply elem_of_nil in Hin.
  - apply NoDup_cons in Hnd as [Hx Hnd]. apply elem_of_cons in Hin as [->|Hin].
    + assert (has_id (Todo.id x) x = true) as -> by now apply has_id_true.
      reflexivity.
    + destruct (has_id (Todo.id r) x) eqn:Hrx; [|now apply IH].
      apply has_id_true in Hrx. exfalso. apply Hx. rewrite Hrx.
      now apply list_elem_of_fmap_2.
Qed.

Lemma ids_replace_by_id (key : string) (r' : Todo.t) (coll : Collection) :
  Todo.id r' = key -> ids (replace_by_id key r' coll) = ids coll.
Proof.
  intros Hkey. unfold ids. induction coll as [|x coll IH]; cbn; [reflexivity|].
  destruct (has_id key x) eqn:Hx; cbn.
  - apply has_id_true in Hx. congruence.
  - now rewrite IH.
Qed.

(** With unique keys, replacing under a key touches the record with that key
    and no other. *)
Lemma replace_by_id_map (key : string) (r' : Todo.t) (coll : Collection) :
  NoDup (ids coll) ->
  replace_by_id key r' coll = map (fun x => if has_id key x then r' else x) coll.
Proof.
  unfold ids. induction coll as [|x coll IH]; cbn; intros Hnd; [reflexivity|].
  apply NoDup_cons in Hnd as [Hx Hnd].
  destruct (has_id key x) eqn:Hkx; [|now rewrite IH].
  f_equal. apply has_id_true in Hkx. subst key.
  clear IH Hnd. induction coll as [|y coll IH]; cbn; [reflexivity|].
  cbn in Hx. apply not_elem_of_cons in Hx as [Hxy Hx].
  assert (has_id (Todo.id x) y = false) as -> by (apply has_id_false; congruence).
  now rewrite <- IH.
Qed.

Lemma remove_by_id_sublist (key : string) (coll : Collection) :
  sublist (remove_by_id key coll) coll.
Proof.
  induction coll as [|x coll IH]; cbn; [constructor|].
  destruct (has_id key x); [now apply sublist_cons | now apply sublist_skip].
Qed.

(** With unique keys, removing under a key leaves exactly the records with
    another key, in their order. *)
Lemma remove_by_id_filter (key : string) (coll : Collection) :
  NoDup (ids coll) ->
  remove_by_id key coll = filter (fun x => Todo.id x <> key) coll.
Proof.
  unfold ids. induction coll as [|x coll IH]; intros Hnd; [reflexivity|].
  cbn [map] in Hnd. apply NoDup_cons in Hnd as [Hx Hnd].
  cbn [remove_by_id]. destruct (has_id key x) eqn:Hkx.
  - apply has_id_true in Hkx. rewrite filter_cons_False by tauto.
    subst key. clear IH Hnd. induction coll as [|y coll IH]; [reflexivity|].
    cbn [map] in Hx. apply not_elem_of_cons in Hx as [Hxy Hx].
    rewrite filter_cons_True by congruence. now rewrite <- IH.
  - apply has_id_false in Hkx. rewrite filter_cons_True by assumption.
    now rewrite IH.
Qed.

Lemma filter_matches_all (coll : Collection) : List.filter (matches WhereAll) coll = coll.
Proof. induction coll as [|x coll IH]; cbn; [reflexivity | now rewrite IH]. Qed.

(** ** Validation *)

Section EngineFacts.
Variable parse_datetime : string -> option Z.

Lemma decode_create_Some (data : json) (ci : CreateInput) :
  decode_create parse_datetime data = Some ci ->
  exists m, data = JObj m
    /\ m !! "content"%string = Some (JStr (ci_content ci))
    /\ (m !! "id"%string = None -> ci_id ci = None)
    /\ (m !! "date"%string = None -> ci_date ci = None).
Proof.
  unfold decode_create. destruct data as [| | | | |m]; try discriminate.
  destruct (bool_decide _); [|discriminate].
  destruct (m !! "content"%string) as [[| | |c| |]|] eqn:Hc; try discriminate.
  destruct (optional_string (m !! "id"%string)) as [i|] eqn:Hi; [|discriminate].
  destruct (optional_datetime parse_datetime (m !! "date"%string)) as [d|] eqn:Hd;
    [|discriminate].
  intros [= <-]. exists m. cbn. repeat split.
  - assumption.
  - intros Hnone. rewrite Hnone in Hi. cbn in Hi. congruence.
  - intros Hnone. rewrite Hnone in Hd. cbn in Hd. congruence.
Qed.

Lemma decode_update_Some (data : json) (ui : UpdateInput) :
  decode_update parse_datetime data = Some ui ->
  exists m, data = JObj m
    /\ (m !! "content"%string = None -> ui_content ui = None)
    /\ (m !! "date"%string = None -> ui_date ui = None)
    /\ (forall x, m !! "content"%string = Some (JStr x) -> ui_content ui = Some x).
Proof.
  unfold decode_update. destruct data as [| | | | |m]; try discriminate.
  destruct (bool_decide _); [|discriminate].
  destruct (optional_string (m !! "content"%string)) as [c|] eqn:Hc; [|discriminate].
  destruct (optional_datetime parse_datetime (m !! "date"%string)) as [d|] eqn:Hd;
    [|discriminate].
  intros [= <-]. exists m. cbn. repeat split.
  - intros Hnone. rewrite Hnone in Hc. cbn in Hc. congruence.
  - intros Hnone. rewrite Hnone in Hd. cbn in Hd. congruence.
  - intros x Hx. rewrite Hx in Hc. cbn in Hc. congruence.
Qed.

(** The bodies the client sends fit the model. *)
Lemma decode_create_content_object (text : string) :
  decode_create parse_datetime (content_object text)
  = Some {| ci_id := None; ci_content := text; ci_date := None |}.
Proof.
  unfold decode_create, content_object.
  rewrite bool_decide_eq_true_2 by (rewrite dom_singleton_L; set_solver).
  rewrite lookup_singleton_eq, !lookup_singleton_ne by discriminate.
  reflexivity.
Qed.

Lemma decode_update_content_object (text : string) :
  decode_update parse_datetime (content_object text)
  = Some {| ui_content := Some text; ui_date := None |}.
Proof.
  unfold decode_update, content_object.
  rewrite bool_decide_eq_true_2 by (rewrite dom_singleton_L; set_solver).
  rewrite lookup_singleton_eq, !lookup_singleton_ne by discriminate.
  reflexivity.
Qed.

(** ** The calls, case by case *)

Lemma mongo_create_inr (env : MongoEnv) (data : json) (coll coll' : Collection)
  (r : Todo.t) :
  mongo_create parse_datetime env data coll = (inr r, coll') ->
  exists ci, decode_create parse_datetime data = Some ci
    /\ online env = true
    /\ Todo.id r = default (objectid_of (auto env)) (ci_id ci)
    /\ is_objectid (Todo.id r) = true
    /\ (Todo.id r ∉ ids coll)
    /\ Todo.content r = ci_content ci
    /\ Todo.date r = default (now env) (ci_date ci)
    /\ coll' = coll ++ [r].
Proof.
  unfold mongo_create.
  destruct (decode_create parse_datetime data) as [ci|]; [|discriminate].
  destruct (online env); [|discriminate]. cbn [negb].
  destruct (is_objectid _) eqn:Hoid; [|discriminate]. cbn [negb].
  destruct (existsb _ coll) eqn:Hfresh; [discriminate|].
  intros [= <- <-]. exists ci. cbn. apply existsb_has_id in Hfresh. tauto.
Qed.

Lemma mongo_create_inl (env : MongoEnv) (data : json) (coll coll' : Collection)
  (e : PrismaError) :
  mongo_create parse_datetime env data coll = (inl e, coll') -> coll' = coll.
Proof.
  unfold mongo_create.
  destruct (decode_create parse_datetime data) as [ci|]; [|congruence].
  destruct (online env); [|cbn; congruence]. cbn [negb].
  destruct (is_objectid _); [|cbn; congruence]. cbn [negb].
  destruct (existsb _ coll); [congruence | discriminate].
Qed.

Lemma mongo_update_inr (env : MongoEnv) (w : Where) (data : json)
  (coll coll' : Collection) (r' : Todo.t) :
  mongo_update parse_datetime env w data coll = (inr r', coll') ->
  exists key ui r, w = WhereId key
    /\ decode_update parse_datetime data = Some ui
    /\ online env = true
    /\ find_by_id key coll = Some r
    /\ r' = apply_update ui r
    /\ coll' = replace_by_id key r' coll.
Proof.
  unfold mongo_update. destruct w as [|key]; [discriminate|].
  destruct (decode_update parse_datetime data) as [ui|]; [|discriminate].
  destruct (online env); [|discriminate]. cbn [negb].
  destruct (is_objectid key); [|discriminate]. cbn [negb].
  destruct (find_by_id key coll) as [r|] eqn:Hfind; [|discriminate].
  intros [= <- <-]. exists key, ui, r. tauto.
Qed.

Lemma mongo_update_inl (env : MongoEnv) (w : Where) (data : json)
  (coll coll' : Collection) (e : PrismaError) :
  mongo_update parse_datetime env w data coll = (inl e, coll') -> coll' = coll.
Proof.
  unfold mongo_update. destruct w as [|key]; [congruence|].
  destruct (decode_update parse_datetime data) as [ui|]; [|congruence].
  destruct (online env); [|cbn; congruence]. cbn [negb].
  destruct (is_objectid key); [|cbn; congruence]. cbn [negb].
  destruct (find_by_id key coll); [discriminate | congruence].
Qed.

End EngineFacts.

Lemma mongo_delete_inr (env : MongoEnv) (w : Where) (coll coll' : Collection)
  (r : Todo.t) :
  mongo_delete env w coll = (inr r, coll') ->
  exists key, w = WhereId key
    /\ online env = true
    /\ find_by_id key coll = Some r
    /\ coll' = remove_by_id key coll.
Proof.
  unfold mongo_delete. destruct w as [|key]; [discriminate|].
  destruct (online env); [|discriminate]. cbn [negb].
  destruct (is_objectid key); [|discriminate]. cbn [negb].
  destruct (find_by_id key coll) as [x|] eqn:Hfind; [|discriminate].
  intros [= <- <-]. exists key. tauto.
Qed.

Lemma mongo_delete_inl (env : MongoEnv) (w : Where) (coll coll' : Collection)
  (e : PrismaError) :
  mongo_delete env w coll = (inl e, coll') -> coll' = coll.
Proof.
  unfold mongo_delete. destruct w as [|key]; [congruence|].
  destruct (online env); [|cbn; congruence]. cbn [negb].
  destruct (is_objectid key); [|cbn; congruence]. cbn [negb].
  destruct (find_by_id key coll); [discriminate | congruence].
Qed.

Lemma mongo_findMany_state (env : MongoEnv) (w : Where) (o : OrderBy) (coll : Collection) :
  snd (mongo_findMany env w o coll) = coll.
Proof.
  unfold mongo_findMany. destruct (online env); [|reflexivity]. cbn [negb].
  destruct (check_where w); reflexivity.
Qed.

(** ** The router over the engine *)

(** Unfold the storage call of an endpoint down to the call of the engine. *)
Ltac engine_calls :=
  cbn [storage_call console_after todo_create todo_findMany todo_update
       todo_delete mongo].

Section RouterOverEngine.
Variable parse_datetime : string -> option Z.

Lemma run_post (env : MongoEnv) (req : Request) (s : Server Collection) :
  run parse_datetime POST_todo env req s =
    (inr (respond (sum_map id OfTodo
            (fst (mongo_create parse_datetime env (body req) (db s))))),
     {| db := snd (mongo_create parse_datetime env (body req) (db s));
        console := console s ++ [body req] |}).
Proof.
  unfold run. rewrite serve_unfold. engine_calls.
  destruct (mongo_create parse_datetime env (body req) (db s)); reflexivity.
Qed.

Lemma run_get (env : MongoEnv) (req : Request) (s : Server Collection) :
  run parse_datetime GET_todos env req s =
    (inr (respond (sum_map id OfTodos
            (fst (mongo_findMany env WhereAll {| by_date := desc |} (db s))))),
     s).
Proof.
  unfold run. rewrite serve_unfold. engine_calls.
  pose proof (mongo_findMany_state env WhereAll {| by_date := desc |} (db s)) as Hst.
  destruct (mongo_findMany env WhereAll {| by_date := desc |} (db s)) as [r d].
  cbn in *. subst d. destruct s; reflexivity.
Qed.

Lemma run_put (env : MongoEnv) (req : Request) (s : Server Collection) :
  run parse_datetime PUT_todo env req s =
    (inr (respond (sum_map id OfTodo
            (fst (mongo_update parse_datetime env (WhereId (params_id req))
                    (body req) (db s))))),
     {| db := snd (mongo_update parse_datetime env (WhereId (params_id req))
                     (body req) (db s));
        console := console s |}).
Proof.
  unfold run. rewrite serve_unfold. engine_calls.
  destruct (mongo_update parse_datetime env (WhereId (params_id req))
              (body req) (db s)); reflexivity.
Qed.

Lemma run_delete (env : MongoEnv) (req : Request) (s : Server Collection) :
  run parse_datetime DELETE_todo env req s =
    (inr (respond (sum_map id OfTodo
            (fst (mongo_delete env (WhereId (params_id req)) (db s))))),
     {| db := snd (mongo_delete env (WhereId (params_id req)) (db s));
        console := console s |}).
Proof.
  unfold run. rewrite serve_unfold. engine_calls.
  destruct (mongo_delete env (WhereId (params_id req)) (db s)); reflexivity.
Qed.

(** A response of the router has status 200 exactly when the storage call
    returned. *)
Lemma respond_200 (r : PrismaError + Payload) :
  status (respond r) = 200 -> exists x, r = inr x /\ sent (respond r) = Some x.
Proof. destruct r as [e|x]; cbn; [discriminate | eauto]. Qed.

Lemma well_keyed_nil : well_keyed [].
Proof. split; constructor. Qed.

Lemma well_keyed_create (env : MongoEnv) (data : json) (coll : Collection) :
  well_keyed coll -> well_keyed (snd (mongo_create parse_datetime env data coll)).
Proof.
  intros [Hnd Hoid].
  destruct (mongo_create parse_datetime env data coll) as [[e|r] coll'] eqn:Hc; cbn.
  - apply mongo_create_inl in Hc as ->. now split.
  - apply mongo_create_inr in Hc as (ci & _ & _ & _ & Hr & Hfresh & _ & _ & ->).
    split.
    + unfold ids in *. rewrite map_app. cbn. apply NoDup_app. repeat split.
      * assumption.
      * intros x Hx Hx'. apply list_elem_of_singleton in Hx'. now subst x.
      * apply NoDup_singleton.
    + apply Forall_app. split; [assumption|]. now constructor.
Qed.

Lemma Forall_replace_by_id (P : Todo.t -> Prop) (key : string) (r' : Todo.t)
  (coll : Collection) :
  Forall P coll -> P r' -> Forall P (replace_by_id key r' coll).
Proof.
  intros Hall Hr'. induction Hall as [|x coll Hx Hall IH]; cbn; [constructor|].
  destruct (has_id key x); now constructor.
Qed.

Lemma well_keyed_update (env : MongoEnv) (w : Where) (data : json) (coll : Collection) :
  well_keyed coll -> well_keyed (snd (mongo_update parse_datetime env w data coll)).
Proof.
  intros [Hnd Hoid].
  destruct (mongo_update parse_datetime env w data coll) as [[e|r'] coll'] eqn:Hu; cbn.
  - apply mongo_update_inl in Hu as ->. now split.
  - apply mongo_update_inr in Hu as (key & ui & r & _ & _ & _ & Hfind & -> & ->).
    apply find_by_id_Some in Hfind as [Hin Hkey]. split.
    + now rewrite ids_replace_by_id.
    + apply Forall_replace_by_id; [assumption|]. cbn.
      rewrite Forall_forall in Hoid. now apply Hoid.
Qed.

Lemma well_keyed_delete (env : MongoEnv) (w : Where) (coll : Collection) :
  well_keyed coll -> well_keyed (snd (mongo_delete env w coll)).
Proof.
  intros [Hnd Hoid].
  destruct (mongo_delete env w coll) as [[e|r] coll'] eqn:Hd; cbn.
  - apply mongo_delete_inl in Hd as ->. now split.
  - apply mongo_delete_inr in Hd as (key & _ & _ & _ & ->).
    pose proof (remove_by_id_sublist key coll) as Hsub. split.
    + apply (sublist_NoDup _ (ids coll)); [exact Hnd|].
      unfold ids. now apply (fmap_sublist Todo.id).
    + rewrite Forall_forall in Hoid |- *. intros x Hx. apply Hoid.
      eapply elem_of_sublist; [exact Hx | exact Hsub].
Qed.

Lemma step_db (c : Call) (s : Server Collection) :
  db (step parse_datetime c s) =
    snd (storage_call (prisma := mongo parse_datetime)
           (endpoint c) (env_of c) (request c) (db s)).
Proof. unfold step, run. now rewrite serve_unfold. Qed.

Lemma step_well_keyed (c : Call) (s : Server Collection) :
  well_keyed (db s) -> well_keyed (db (step parse_datetime c s)).
Proof.
  intros Hwk. rewrite step_db. destruct c as [[] env req];
    cbn [endpoint env_of request]; engine_calls.
  - pose proof (well_keyed_create env (body req) (db s) Hwk) as H.
    now destruct (mongo_create parse_datetime env (body req) (db s)).
  - pose proof (mongo_findMany_state env WhereAll {| by_date := desc |} (db s)) as H.
    destruct (mongo_findMany env WhereAll {| by_date := desc |} (db s)).
    cbn in *. now subst.
  - pose proof (well_keyed_update env (WhereId (params_id req)) (body req) (db s) Hwk)
      as H.
    now destruct (mongo_update parse_datetime env (WhereId (params_id req))
                    (body req) (db s)).
  - pose proof (well_keyed_delete env (WhereId (params_id req)) (db s) Hwk) as H.
    now destruct (mongo_delete env (WhereId (params_id req)) (db s)).
Qed.

(** In every reachable state the keys are ObjectIds, one record each. *)
Lemma reachable_well_keyed (s : Server Collection) :
  reachable parse_datetime s -> well_keyed (db s).
Proof.
  induction 1 as [|c s Hs IH]; [apply well_keyed_nil | now apply step_well_keyed].
Qed.

End RouterOverEngine.

(** ** The four operations on the store *)

Lemma mongo_findMany_all_inr (env : MongoEnv) (o : OrderBy) (coll : Collection)
  (l : list Todo.t) :
  fst (mongo_findMany env WhereAll o coll) = inr l ->
  online env = true /\ l = sort_by (date_leb (by_date o)) coll.
Proof.
  unfold mongo_findMany. destruct (online env); [|discriminate].
  cbn. rewrite filter_matches_all. intros [= <-]. split; reflexivity.
Qed.

Lemma mongo_findMany_all_online (env : MongoEnv) (o : OrderBy) (coll : Collection) :
  online env = true ->
  mongo_findMany env WhereAll o coll = (inr (sort_by (date_leb (by_date o)) coll), coll).
Proof.
  intros Hon. unfold mongo_findMany. rewrite Hon. cbn.
  now rewrite filter_matches_all.
Qed.

(** A GET /todos that succeeds sends the collection, sorted. *)
Lemma run_get_200 (parse_datetime : string -> option Z) (env : MongoEnv)
  (req : Request) (s s' : Server Collection) (res : Response) :
  run parse_datetime GET_todos env req s = (inr res, s') ->
  status res = 200 ->
  sent res = Some (OfTodos (sort_by (date_leb desc) (db s))) /\ s' = s.
Proof.
  rewrite run_get. intros [= <- <-] H200.
  apply respond_200 in H200 as (x & Hx & Hsent).
  destruct (fst (mongo_findMany env WhereAll {| by_date := desc |} (db s)))
    as [e|todos] eqn:Hfind; [discriminate|].
  apply mongo_findMany_all_inr in Hfind as [_ ->]. cbn in Hx. injection Hx as <-.
  now split.
Qed.

(** A POST /todo that succeeds appends the record it sends. *)
Lemma run_post_200 (parse_datetime : string -> option Z) (env : MongoEnv)
  (req : Request) (s s' : Server Collection) (res : Response) :
  run parse_datetime POST_todo env req s = (inr res, s') ->
  status res = 200 ->
  exists (ci : CreateInput) (r : Todo.t),
    decode_create parse_datetime (body req) = Some ci
    /\ sent res = Some (OfTodo r)
    /\ Todo.id r = default (objectid_of (auto env)) (ci_id ci)
    /\ (Todo.id r ∉ ids (db s))
    /\ Todo.content r = ci_content ci
    /\ Todo.date r = default (now env) (ci_date ci)
    /\ db s' = db s ++ [r].
Proof.
  rewrite run_post. intros [= <- <-] H200.
  apply respond_200 in H200 as (x & Hx & Hsent).
  destruct (mongo_create parse_datetime env (body req) (db s))
    as [[e|r] coll'] eqn:Hc; [discriminate|].
  cbn in Hx. injection Hx as <-.
  apply mongo_create_inr in Hc
    as (ci & Hdec & _ & Hkey & _ & Hfresh & Hcontent & Hd & ->).
  exists ci, r. cbn [db snd]. tauto.
Qed.

(** C2: in every state of the store, a GET /todos that succeeds (status 200)
    sends a list that holds exactly the stored records (a permutation of the
    collection), ordered by date with the most recent first (each record at
    least as recent as those after it, so equal dates may come in any order),
    and the empty list when the collection is empty; the store is left as it
    was. *)
Theorem get_todos_lists_all_newest_first
  (parse_datetime : string -> option Z) (env : MongoEnv) (req : Request)
  (s s' : Server Collection) (res : Response) :
  run parse_datetime GET_todos env req s = (inr res, s') ->
  status res = 200 ->
  exists todos : list Todo.t,
    sent res = Some (OfTodos todos)
    /\ Permutation todos (db s)
    /\ newest_first todos
    /\ (db s = [] -> todos = [])
    /\ s' = s.
Proof.
  intros Hget H200. destruct (run_get_200 _ _ _ _ _ _ Hget H200) as [Hsent ->].
  eexists. split; [exact Hsent|]. repeat split.
  - apply sort_by_Permutation.
  - apply sort_by_desc_newest_first.
  - now intros ->.
Qed.

Lemma get_todos_lists_all_newest_first_witness :
  exists todos : list Todo.t,
    sent {| status := 200; sent := Some (OfTodos [dog; milk]) |} = Some (OfTodos todos)
    /\ Permutation todos (db two_todos)
    /\ newest_first todos
    /\ (db two_todos = [] -> todos = [])
    /\ two_todos = two_todos.
Proof.
  apply (get_todos_lists_all_newest_first sample_datetime (up 300 3) empty_request).
  - vm_compute. reflexivity.
  - reflexivity.
Defined.

Lemma elem_of_map_replace (key : string) (r' t : Todo.t) (coll : Collection) :
  Todo.id r' = key -> Todo.id t <> key ->
  t ∈ map (fun x => if has_id key x then r' else x) coll <-> t ∈ coll.
Proof.
  intros Hr' Ht. rewrite !list_elem_of_In, in_map_iff. split.
  - intros (x & Hx & Hin). destruct (has_id key x); congruence.
  - intros Hin. exists t. split; [|assumption].
    now apply has_id_false in Ht as ->.
Qed.

(** C3: in every reachable state, for every stored record [r] and every
    string [X], with the database reachable, PUT /todo/:id with the key of [r]
    and the body [{content: X}] answers 200 with the record [r'] that has the
    content [X] and the id and date of [r]; the store afterwards is the store
    before with [r'] in the place of [r] and every other record as it was; a
    lookup under the key finds [r'], and the list GET /todos then sends holds
    [r'], no other record under that key, and the records of the other keys
    exactly as before. *)
Theorem update_content_changes_only_content
  (parse_datetime : string -> option Z) (s : Server Collection) (r : Todo.t)
  (X : string) (env env' : MongoEnv) (req' : Request) :
  reachable parse_datetime s ->
  r ∈ db s ->
  online env = true ->
  online env' = true ->
  exists (r' : Todo.t) (s' : Server Collection),
    run parse_datetime PUT_todo env
      {| body := content_object X; params_id := Todo.id r |} s
    = (inr {| status := 200; sent := Some (OfTodo r') |}, s')
    /\ (Todo.content r' = X /\ Todo.id r' = Todo.id r /\ Todo.date r' = Todo.date r)
    /\ db s' = map (fun t => if has_id (Todo.id r) t then r' else t) (db s)
    /\ find_by_id (Todo.id r) (db s') = Some r'
    /\ exists todos : list Todo.t,
         run parse_datetime GET_todos env' req' s'
         = (inr {| status := 200; sent := Some (OfTodos todos) |}, s')
         /\ (r' ∈ todos)
         /\ (forall t, t ∈ todos -> Todo.id t = Todo.id r -> t = r')
         /\ (forall t, Todo.id t <> Todo.id r -> t ∈ todos <-> t ∈ db s).
Proof.
  intros Hreach Hin Hon Hon'.
  destruct (reachable_well_keyed _ _ Hreach) as [Hnd Hoid].
  assert (is_objectid (Todo.id r) = true) as Hkey
    by (rewrite Forall_forall in Hoid; now apply Hoid).
  pose (r' := Todo.with_content X r).
  pose (coll' := replace_by_id (Todo.id r) r' (db s)).
  assert (mongo_update parse_datetime env (WhereId (Todo.id r)) (content_object X) (db s)
          = (inr r', coll')) as Hupd.
  { unfold mongo_update. rewrite decode_update_content_object, Hon, Hkey.
    cbn [negb]. now rewrite (find_by_id_elem _ _ Hnd Hin). }
  assert (ids coll' = ids (db s)) as Hids by now apply ids_replace_by_id.
  assert (r' ∈ coll') as Hin'.
  { unfold coll'. rewrite replace_by_id_map by assumption.
    apply list_elem_of_In, in_map_iff. exists r. split.
    - assert (has_id (Todo.id r) r = true) as -> by now apply has_id_true.
      reflexivity.
    - now apply list_elem_of_In. }
  exists r', {| db := coll'; console := console s |}.
  split; [|split; [|split; [|split]]].
  - rewrite run_put. cbn [body params_id]. now rewrite Hupd.
  - cbn. tauto.
  - cbn [db]. unfold coll'. now apply replace_by_id_map.
  - cbn [db]. apply (find_by_id_elem coll' r'); [now rewrite Hids | assumption].
  - exists (sort_by (date_leb desc) coll'). split; [|split; [|split]].
    + rewrite run_get. cbn [db]. now rewrite mongo_findMany_all_online.
    + now rewrite sort_by_Permutation.
    + intros t Ht Hid. rewrite sort_by_Permutation in Ht.
      assert (find_by_id (Todo.id t) coll' = Some t) as Hft
        by (apply find_by_id_elem; [now rewrite Hids | assumption]).
      assert (find_by_id (Todo.id r') coll' = Some r') as Hfr
        by (apply find_by_id_elem; [now rewrite Hids | assumption]).
      cbn in Hfr. rewrite Hid in Hft. congruence.
    + intros t Ht. rewrite sort_by_Permutation. unfold coll'.
      rewrite replace_by_id_map by assumption. now apply elem_of_map_replace.
Qed.

Lemma update_content_changes_only_content_witness :
  exists (r' : Todo.t) (s' : Server Collection),
    run sample_datetime PUT_todo (up 300 3)
      {| body := content_object "buy oat milk"; params_id := Todo.id milk |} two_todos
    = (inr {| status := 200; sent := Some (OfTodo r') |}, s')
    /\ (Todo.content r' = "buy oat milk"%string
        /\ Todo.id r' = Todo.id milk /\ Todo.date r' = Todo.date milk)
    /\ db s' = map (fun t => if has_id (Todo.id milk) t then r' else t) (db two_todos)
    /\ find_by_id (Todo.id milk) (db s') = Some r'
    /\ exists todos : list Todo.t,
         run sample_datetime GET_todos (up 400 4) empty_request s'
         = (inr {| status := 200; sent := Some (OfTodos todos) |}, s')
         /\ (r' ∈ todos)
         /\ (forall t, t ∈ todos -> Todo.id t = Todo.id milk -> t = r')
         /\ (forall t, Todo.id t <> Todo.id milk -> t ∈ todos <-> t ∈ db two_todos).
Proof.
  apply (update_content_changes_only_content sample_datetime two_todos milk).
  - unfold two_todos, one_todo. do 2 constructor. constructor.
  - vm_compute. apply list_elem_of_here.
  - reflexivity.
  - reflexivity.
Defined.

Lemma filter_none (P : Todo.t -> Prop) `{forall t, Decision (P t)} (l : list Todo.t) :
  (forall t, t ∈ l -> ~ P t) -> filter P l = [].
Proof.
  induction l as [|x l IH]; intros Hnone; [reflexivity|].
  rewrite filter_cons_False by (apply Hnone; left).
  apply IH. intros t Ht. apply Hnone. now right.
Qed.

(** C4 (as amended): for every body without [id] and [date], a POST /todo
    that succeeds (status 200) has a body with a string [content]; the store
    gains exactly one record, appended to the collection, with that content,
    the key the engine generated (which no stored record had) and the date of
    the clock at the insert; the response carries that record; and a list sent
    by a later successful GET /todos holds the stored records and the new one,
    the new key exactly once, and one record more with that content than the
    store held before. *)
Theorem create_adds_one_record
  (parse_datetime : string -> option Z) (env : MongoEnv) (b : json) (p : string)
  (s s' : Server Collection) (res : Response) :
  "id"%string ∉ keys b ->
  "date"%string ∉ keys b ->
  run parse_datetime POST_todo env {| body := b; params_id := p |} s = (inr res, s') ->
  status res = 200 ->
  exists (m : gmap string json) (r : Todo.t),
    b = JObj m
    /\ m !! "content"%string = Some (JStr (Todo.content r))
    /\ sent res = Some (OfTodo r)
    /\ Todo.id r = objectid_of (auto env)
    /\ (Todo.id r ∉ ids (db s))
    /\ Todo.date r = now env
    /\ db s' = db s ++ [r]
    /\ forall (env' : MongoEnv) (req' : Request) (res' : Response)
         (s'' : Server Collection),
         run parse_datetime GET_todos env' req' s' = (inr res', s'') ->
         status res' = 200 ->
         exists todos : list Todo.t,
           sent res' = Some (OfTodos todos)
           /\ Permutation todos (db s ++ [r])
           /\ length (filter (fun t => Todo.id t = Todo.id r) todos) = 1%nat
           /\ length (filter (fun t => Todo.content t = Todo.content r) todos)
              = S (length (filter (fun t => Todo.content t = Todo.content r) (db s))).
Proof.
  intros Hid Hdate Hpost H200.
  destruct (run_post_200 _ _ _ _ _ _ Hpost H200)
    as (ci & r & Hdec & Hsent & Hkey & Hfresh & Hcontent & Hd & Hdb).
  cbn [body] in Hdec.
  apply decode_create_Some in Hdec as (m & -> & Hm & Hnoid & Hnodate).
  cbn [keys] in Hid, Hdate. apply not_elem_of_dom in Hid, Hdate.
  rewrite (Hnoid Hid) in Hkey. rewrite (Hnodate Hdate) in Hd. cbn in Hkey, Hd.
  exists m, r. repeat split; try assumption.
  - now rewrite Hcontent.
  - intros env' req' res' s'' Hget H200'.
    destruct (run_get_200 _ _ _ _ _ _ Hget H200') as [Hsent' _].
    rewrite Hdb in Hsent'. eexists. split; [exact Hsent'|].
    split; [apply sort_by_Permutation|].
    rewrite !sort_by_Permutation, !filter_app, !length_app.
    rewrite !filter_cons_True, !filter_nil by reflexivity. cbn [length].
    split; [|lia].
    rewrite filter_none; [reflexivity|].
    intros t Ht Heq. apply Hfresh. rewrite <- Heq. unfold ids.
    now apply list_elem_of_fmap_2.
Qed.

Lemma create_adds_one_record_witness :
  exists (m : gmap string json) (r : Todo.t),
    content_object "walk the dog" = JObj m
    /\ m !! "content"%string = Some (JStr (Todo.content r))
    /\ sent {| status := 200; sent := Some (OfTodo dog) |} = Some (OfTodo r)
    /\ Todo.id r = objectid_of (auto (up 200 2))
    /\ (Todo.id r ∉ ids (db one_todo))
    /\ Todo.date r = now (up 200 2)
    /\ db two_todos = db one_todo ++ [r]
    /\ forall (env' : MongoEnv) (req' : Request) (res' : Response)
         (s'' : Server Collection),
         run sample_datetime GET_todos env' req' two_todos = (inr res', s'') ->
         status res' = 200 ->
         exists todos : list Todo.t,
           sent res' = Some (OfTodos todos)
           /\ Permutation todos (db one_todo ++ [r])
           /\ length (filter (fun t => Todo.id t = Todo.id r) todos) = 1%nat
           /\ length (filter (fun t => Todo.content t = Todo.content r) todos)
              = S (length (filter (fun t => Todo.content t = Todo.content r)
                             (db one_todo))).
Proof.
  apply (create_adds_one_record sample_datetime (up 200 2)
           (content_object "walk the dog") "" one_todo two_todos).
  - apply not_elem_of_dom. reflexivity.
  - apply not_elem_of_dom. reflexivity.
  - vm_compute. reflexivity.
  - reflexivity.
Defined.

(** C4, the claim as stated fails: after creating a record whose content a
    stored record already has, the list holds two records with that content,
    not exactly one. *)
Lemma create_duplicate_content_counterexample :
  exists (r : Todo.t) (s' : Server Collection) (todos : list Todo.t),
    run sample_datetime POST_todo (up 200 2) (post_of "buy milk") one_todo
    = (inr {| status := 200; sent := Some (OfTodo r) |}, s')
    /\ run sample_datetime GET_todos (up 300 3) empty_request s'
       = (inr {| status := 200; sent := Some (OfTodos todos) |}, s')
    /\ length (filter (fun t => Todo.content t = "buy milk"%string) todos) = 2%nat.
Proof.
  eexists _, _, _. split; [vm_compute; reflexivity|].
  split; [vm_compute; reflexivity|]. vm_compute. reflexivity.
Qed.

(** C5: in every reachable state, for every stored record [r], with the
    database reachable, DELETE /todo/:id with the key of [r] answers 200 with
    [r] as it was stored; the store afterwards holds exactly the records with
    another key, as they were and in their order; the list a GET /todos then
    sends has no record under the key; and a second DELETE of the key answers
    500 (the error is that no record was found, when the database is reached). *)
Theorem delete_removes_the_record
  (parse_datetime : string -> option Z) (s : Server Collection) (r : Todo.t)
  (b b'' : json) (env env' env'' : MongoEnv) (req' : Request) :
  reachable parse_datetime s ->
  r ∈ db s ->
  online env = true ->
  online env' = true ->
  exists s' : Server Collection,
    run parse_datetime DELETE_todo env {| body := b; params_id := Todo.id r |} s
    = (inr {| status := 200; sent := Some (OfTodo r) |}, s')
    /\ db s' = filter (fun t => Todo.id t <> Todo.id r) (db s)
    /\ (exists todos : list Todo.t,
          run parse_datetime GET_todos env' req' s'
          = (inr {| status := 200; sent := Some (OfTodos todos) |}, s')
          /\ Permutation todos (db s')
          /\ (Todo.id r ∉ ids todos))
    /\ (exists e : PrismaError,
          run parse_datetime DELETE_todo env''
            {| body := b''; params_id := Todo.id r |} s'
          = (inr {| status := 500; sent := Some (OfError e) |}, s')
          /\ (online env'' = true -> e = RecordNotFound)).
Proof.
  intros Hreach Hin Hon Hon'.
  destruct (reachable_well_keyed _ _ Hreach) as [Hnd Hoid].
  assert (is_objectid (Todo.id r) = true) as Hkey
    by (rewrite Forall_forall in Hoid; now apply Hoid).
  pose (coll' := remove_by_id (Todo.id r) (db s)).
  assert (coll' = filter (fun t => Todo.id t <> Todo.id r) (db s)) as Hfilter
    by now apply remove_by_id_filter.
  assert (Todo.id r ∉ ids coll') as Hgone.
  { rewrite Hfilter. unfold ids. intros Hmem.
    apply list_elem_of_fmap in Hmem as (t & Hid & Ht).
    apply list_elem_of_filter in Ht as [Hne _]. congruence. }
  exists {| db := coll'; console := console s |}.
  split; [|split; [|split]].
  - rewrite run_delete. cbn [params_id]. unfold mongo_delete.
    rewrite Hon, Hkey. cbn [negb]. now rewrite (find_by_id_elem _ _ Hnd Hin).
  - exact Hfilter.
  - exists (sort_by (date_leb desc) coll'). split; [|split].
    + rewrite run_get. cbn [db]. now rewrite mongo_findMany_all_online.
    + apply sort_by_Permutation.
    + unfold ids in *. now rewrite sort_by_Permutation.
  - apply find_by_id_None in Hgone.
    rewrite run_delete. cbn [params_id db]. unfold mongo_delete.
    destruct (online env''); cbn [negb].
    + rewrite Hkey. cbn [negb]. fold coll'. rewrite Hgone. cbn. eauto.
    + cbn. eexists. split; [reflexivity | discriminate].
Qed.

Lemma delete_removes_the_record_witness :
  exists s' : Server Collection,
    run sample_datetime DELETE_todo (up 300 3)
      {| body := JNull; params_id := Todo.id milk |} two_todos
    = (inr {| status := 200; sent := Some (OfTodo milk) |}, s')
    /\ db s' = filter (fun t => Todo.id t <> Todo.id milk) (db two_todos)
    /\ (exists todos : list Todo.t,
          run sample_datetime GET_todos (up 400 4) empty_request s'
          = (inr {| status := 200; sent := Some (OfTodos todos) |}, s')
          /\ Permutation todos (db s')
          /\ (Todo.id milk ∉ ids todos))
    /\ (exists e : PrismaError,
          run sample_datetime DELETE_todo (up 500 5)
            {| body := JNull; params_id := Todo.id milk |} s'
          = (inr {| status := 500; sent := Some (OfError e) |}, s')
          /\ (online (up 500 5) = true -> e = RecordNotFound)).
Proof.
  apply (delete_removes_the_record sample_datetime two_todos milk).
  - unfold two_todos, one_todo. do 2 constructor. constructor.
  - vm_compute. apply list_elem_of_here.
  - reflexivity.
  - reflexivity.
Defined.

(** C6: in every state reachable by any sequence of requests to the four
    endpoints, no two stored records have the same id; and no request from
    such a state changes the id of a stored record: a create only appends a
    record under a new key, a list changes nothing, an update (whatever body
    is passed through) leaves every record in its place with its id, and a
    delete only removes. *)
Theorem ids_unique_and_never_reassigned
  (parse_datetime : string -> option Z) (s : Server Collection) :
  reachable parse_datetime s ->
  NoDup (ids (db s))
  /\ forall c : Call, keys_kept (endpoint c) (db s) (db (step parse_datetime c s)).
Proof.
  intros Hreach. split; [apply (reachable_well_keyed _ _ Hreach)|].
  intros [ep env req]. rewrite step_db. cbn [endpoint env_of request].
  destruct ep; engine_calls; cbn [keys_kept].
  - destruct (mongo_create parse_datetime env (body req) (db s))
      as [[e|r] coll'] eqn:Hc; cbn [snd].
    + left. now apply mongo_create_inl in Hc.
    + right. exists r.
      apply mongo_create_inr in Hc as (ci & _ & _ & _ & _ & Hfresh & _ & _ & ->).
      now split.
  - pose proof (mongo_findMany_state env WhereAll {| by_date := desc |} (db s)) as H.
    now destruct (mongo_findMany env WhereAll {| by_date := desc |} (db s)).
  - destruct (mongo_update parse_datetime env (WhereId (params_id req)) (body req)
                (db s)) as [[e|r'] coll'] eqn:Hu; cbn [snd].
    + now apply mongo_update_inl in Hu as ->.
    + apply mongo_update_inr in Hu as (key & ui & r & _ & _ & _ & Hfind & -> & ->).
      apply find_by_id_Some in Hfind as [_ Hkey]. now apply ids_replace_by_id.
  - destruct (mongo_delete env (WhereId (params_id req)) (db s))
      as [[e|r] coll'] eqn:Hd; cbn [snd].
    + now apply mongo_delete_inl in Hd as ->.
    + apply mongo_delete_inr in Hd as (key & _ & _ & _ & ->).
      apply remove_by_id_sublist.
Qed.

Lemma ids_unique_and_never_reassigned_witness :
  NoDup (ids (db two_todos))
  /\ forall c : Call,
       keys_kept (endpoint c) (db two_todos) (db (step sample_datetime c two_todos)).
Proof.
  apply (ids_unique_and_never_reassigned sample_datetime two_todos).
  unfold two_todos, one_todo. do 2 constructor. constructor.
Defined.

(** ** The scenario of the specification, run *)

Example objectid_of_one : objectid_of 1 = "000000000000000000000001"%string.
Proof. reflexivity. Qed.

Example undefined_is_no_objectid : is_objectid "undefined" = false.
Proof. reflexivity. Qed.

(** POST "buy milk", GET, PUT "buy oat milk", DELETE, GET: 200 each time, the
    record, a list of one, the updated record, the record as deleted, the
    empty list. *)
Example end_to_end_scenario :
  let '(r1, s1) := run sample_datetime POST_todo (up 100 1) (post_of "buy milk") initial in
  let '(r2, s2) := run sample_datetime GET_todos (up 200 2) empty_request s1 in
  let '(r3, s3) := run sample_datetime PUT_todo (up 300 3)
                     (put_of (Todo.id milk) "buy oat milk") s2 in
  let '(r4, s4) := run sample_datetime DELETE_todo (up 400 4)
                     (delete_of (Todo.id milk)) s3 in
  let '(r5, s5) := run sample_datetime GET_todos (up 500 5) empty_request s4 in
  r1 = inr {| status := 200; sent := Some (OfTodo milk) |}
  /\ r2 = inr {| status := 200; sent := Some (OfTodos [milk]) |}
  /\ r3 = inr {| status := 200;
                 sent := Some (OfTodo (Todo.with_content "buy oat milk" milk)) |}
  /\ r4 = inr {| status := 200;
                 sent := Some (OfTodo (Todo.with_content "buy oat milk" milk)) |}
  /\ r5 = inr {| status := 200; sent := Some (OfTodos []) |}
  /\ db s5 = [].
Proof. vm_compute. repeat split. Qed.

(** An unreachable database, an unknown key, a taken key, a body that does
    not fit: 500 each time, and the store is as it was. *)
Example failures_are_500 :
  run sample_datetime GET_todos down empty_request two_todos
  = (inr {| status := 500; sent := Some (OfError Unreachable) |}, two_todos)
  /\ run sample_datetime DELETE_todo (up 300 3)
       (delete_of "00000000000000000000000a") two_todos
     = (inr {| status := 500; sent := Some (OfError RecordNotFound) |}, two_todos)
  /\ fst (run sample_datetime POST_todo (up 300 1) (post_of "again") two_todos)
     = inr {| status := 500; sent := Some (OfError UniqueConstraint) |}
  /\ fst (run sample_datetime POST_todo (up 300 3) empty_request two_todos)
     = inr {| status := 500; sent := Some (OfError ValidationError) |}.
Proof. vm_compute. repeat split. Qed.

(** The client before the fix noted in the migration plan: an item without
    [data-id] asks for [/todo/undefined]. *)
Example missing_dataset_id_is_undefined :
  Fetch.url (delete_request (mkElement ∅ "" "" ∅)) = "/todo/undefined"%string.
Proof. reflexivity. Qed.

(** ** The client *)

Section ClientFacts.
Variable network : Fetch.Request -> Fetch.Outcome.

(** The chain the three writes share, settled: the parsed body when the
    response is a success, else [undefined] after one line on the console. *)
Lemma write_chain (req : Fetch.Request) (message : string) (w : Browser) :
  catch_
    (then_ (fetch network req)
       (fun response =>
          if negb (Fetch.ok response) then reject (Error message)
          else response_json response))
    (fun err => console_log_err err) w
  = match network req with
    | Fetch.Fails e => (Fulfilled VUndefined, logged_error e (sent_request req w))
    | Fetch.Responds r =>
        if Fetch.ok r then
          match Fetch.parsed r with
          | Some j => (Fulfilled (VJson j), sent_request req w)
          | None => (Fulfilled VUndefined, logged_error SyntaxError (sent_request req w))
          end
        else (Fulfilled VUndefined, logged_error (Error message) (sent_request req w))
    end.
Proof.
  unfold catch_, then_, fetch. destruct (network req) as [e|r]; [reflexivity|].
  destruct (Fetch.ok r); cbn [negb]; [|reflexivity].
  unfold response_json. destruct (Fetch.parsed r); reflexivity.
Qed.

Lemma createData_settled (textInput : string) (w : Browser) :
  createData network textInput w
  = match network (create_request textInput) with
    | Fetch.Fails e =>
        (Fulfilled VUndefined, logged_error e (sent_request (create_request textInput) w))
    | Fetch.Responds r =>
        if Fetch.ok r then
          match Fetch.parsed r with
          | Some j => (Fulfilled (VJson j), sent_request (create_request textInput) w)
          | None =>
              (Fulfilled VUndefined,
               logged_error SyntaxError (sent_request (create_request textInput) w))
          end
        else (Fulfilled VUndefined,
              logged_error (Error "Failed to create todo")
                (sent_request (create_request textInput) w))
    end.
Proof. apply write_chain. Qed.

Lemma deleteData_settled (todo : Element) (w : Browser) :
  deleteData network todo w
  = match network (delete_request todo) with
    | Fetch.Fails e =>
        (Fulfilled VUndefined, logged_error e (sent_request (delete_request todo) w))
    | Fetch.Responds r =>
        if Fetch.ok r then
          match Fetch.parsed r with
          | Some j => (Fulfilled (VJson j), sent_request (delete_request todo) w)
          | None =>
              (Fulfilled VUndefined,
               logged_error SyntaxError (sent_request (delete_request todo) w))
          end
        else (Fulfilled VUndefined,
              logged_error (Error "Failed to delete todo")
                (sent_request (delete_request todo) w))
    end.
Proof. apply write_chain. Qed.

Lemma updateData_settled (todo input : Element) (w : Browser) :
  querySelector todo "form input" = Some input ->
  updateData network todo w
  = match network (update_request todo (value input)) with
    | Fetch.Fails e =>
        (Fulfilled VUndefined,
         logged_error e (sent_request (update_request todo (value input)) w))
    | Fetch.Responds r =>
        if Fetch.ok r then
          match Fetch.parsed r with
          | Some j =>
              (Fulfilled (VJson j), sent_request (update_request todo (value input)) w)
          | None =>
              (Fulfilled VUndefined,
               logged_error SyntaxError
                 (sent_request (update_request todo (value input)) w))
          end
        else (Fulfilled VUndefined,
              logged_error (Error "Failed to update todo")
                (sent_request (update_request todo (value input)) w))
    end.
Proof.
  intros Hinput. unfold updateData. rewrite Hinput.
  unfold then_ at 1. cbn [value_of resolve]. apply write_chain.
Qed.

(** Without a form input below the item nothing is sent, and the promise is
    rejected. *)
Lemma updateData_no_input (todo : Element) (w : Browser) :
  querySelector todo "form input" = None ->
  updateData network todo w
  = (Rejected (TypeError "Cannot read properties of null (reading 'value')"), w).
Proof. intros Hnone. unfold updateData. rewrite Hnone. reflexivity. Qed.

End ClientFacts.

Lemma with_display_shows (selector v : string) (el target : Element) :
  querySelector el selector = Some target ->
  display <$> querySelector (with_display selector v el) selector = Some v.
Proof.
  unfold querySelector, with_display. intros ->. cbn [query].
  now rewrite lookup_insert_eq.
Qed.

Lemma readData_settled (network : Fetch.Request -> Fetch.Outcome) (w : Browser)
  (notices : Element) :
  querySelector (document w) "#notices" = Some notices ->
  readData network w
  = match network todos_request with
    | Fetch.Fails e =>
        (Fulfilled (VJson (JArr [])),
         displayed "#notices" "block" (logged_error e (sent_request todos_request w)))
    | Fetch.Responds r =>
        if Fetch.ok r then
          match Fetch.parsed r with
          | Some j => (Fulfilled (VJson j), sent_request todos_request w)
          | None =>
              (Fulfilled (VJson (JArr [])),
               displayed "#notices" "block"
                 (logged_error SyntaxError (sent_request todos_request w)))
          end
        else (Fulfilled (VJson (JArr [])),
              displayed "#notices" "block" (sent_request todos_request w))
    end.
Proof.
  intros Hnotices. unfold readData, catch_, then_, fetch.
  destruct (network todos_request) as [e|r].
  - unfold console_log_err, set_display. cbn [document logged_error sent_request].
    now rewrite Hnotices.
  - destruct (Fetch.ok r); cbn [negb].
    + unfold response_json. destruct (Fetch.parsed r); cbn [reject resolve].
      * reflexivity.
      * unfold console_log_err, set_display. cbn [document logged_error sent_request].
        now rewrite Hnotices.
    + unfold set_display. cbn [document sent_request]. now rewrite Hnotices.
Qed.

(** C7 (as amended): on a page that has the "#notices" element, whatever
    comes of the GET /todos request, [readData] is fulfilled, never rejected:
    when the response is a success whose body is JSON, with the parsed body
    (the array of records when the body is one; a body that is no array is
    passed on as it is), the page being left as it was but for the request
    sent; and on every failure (the network fails, the status is not a
    success, or the body is no JSON) with the empty array, the display of
    "#notices" having been set to "block". *)
Theorem readData_resolves_with_a_list
  (network : Fetch.Request -> Fetch.Outcome) (w : Browser) (notices : Element) :
  querySelector (document w) "#notices" = Some notices ->
  (forall (r : Fetch.Response) (j : json),
     network todos_request = Fetch.Responds r ->
     Fetch.ok r = true ->
     Fetch.parsed r = Some j ->
     readData network w = (Fulfilled (VJson j), sent_request todos_request w))
  /\ (read_failed (network todos_request) ->
      exists w' : Browser,
        readData network w = (Fulfilled (VJson (JArr [])), w')
        /\ display <$> querySelector (document w') "#notices" = Some "block"%string)
  /\ (exists (v : Value) (w' : Browser), readData network w = (Fulfilled v, w')).
Proof.
  intros Hnotices. rewrite (readData_settled _ _ _ Hnotices).
  pose proof (with_display_shows "#notices" "block" _ _ Hnotices) as Hshown.
  split; [|split].
  - intros r j -> -> ->. reflexivity.
  - destruct (network todos_request) as [e|r]; cbn [read_failed].
    + intros _. eexists. split; [reflexivity | exact Hshown].
    + intros [Hok | Hparse].
      * rewrite Hok. eexists. split; [reflexivity | exact Hshown].
      * rewrite Hparse. destruct (Fetch.ok r);
          (eexists; split; [reflexivity | exact Hshown]).
  - destruct (network todos_request) as [e|r]; [eauto|].
    destruct (Fetch.ok r); [|eauto]. destruct (Fetch.parsed r); eauto.
Qed.

Lemma readData_resolves_with_a_list_witness :
  readData listing_server page
  = (Fulfilled (VJson (JArr [milk_json])), sent_request todos_request page)
  /\ (exists w' : Browser,
        readData failing_server page = (Fulfilled (VJson (JArr [])), w')
        /\ display <$> querySelector (document w') "#notices" = Some "block"%string)
  /\ (exists w' : Browser,
        readData offline page = (Fulfilled (VJson (JArr [])), w')
        /\ display <$> querySelector (document w') "#notices" = Some "block"%string).
Proof.
  assert (querySelector (document page) "#notices" = Some hidden_notice) as Hnotices
    by (vm_compute; reflexivity).
  split; [|split].
  - destruct (readData_resolves_with_a_list listing_server page hidden_notice Hnotices)
      as (Hsuccess & _ & _).
    apply (Hsuccess {| Fetch.status := 200; Fetch.parsed := Some (JArr [milk_json]) |});
      reflexivity.
  - destruct (readData_resolves_with_a_list failing_server page hidden_notice Hnotices)
      as (_ & Hfailure & _).
    apply Hfailure. left. reflexivity.
  - destruct (readData_resolves_with_a_list offline page hidden_notice Hnotices)
      as (_ & Hfailure & _).
    apply Hfailure. exact I.
Defined.

(** C7, the claim as stated fails: on a page without the "#notices" element a
    read whose request fails is rejected (the handler that catches the failure
    throws in turn), so the caller does receive a rejection; and a success
    whose body is JSON but no array is passed on as it is, so what the caller
    receives is then no list. *)
Lemma readData_rejected_counterexample :
  readData failing_server
    {| document := mkElement ∅ "" "" ∅; logged := []; requests := [] |}
  = (Rejected (TypeError "Cannot read properties of null (reading 'style')"),
     {| document := mkElement ∅ "" "" ∅;
        logged := [TypeError "Cannot read properties of null (reading 'style')"];
        requests := [todos_request] |})
  /\ fst (readData object_server page) = Fulfilled (VJson (JObj ∅)).
Proof. split; vm_compute; reflexivity. Qed.

(** C8: when the request of a write operation failed (the network failed or
    the status is not a success), the promise is fulfilled with [undefined],
    the error was logged to the console (the error of the network, or the
    error "Failed to create todo", "Failed to update todo", "Failed to delete
    todo" of the function), the one request was sent, and nothing else
    happened: the document, the "#notices" element in it, is as it was.  This
    of [createData] for every string, of [deleteData] for every element, and
    of [updateData] for every element that has the form input whose value it
    sends. *)
Theorem failed_write_only_logs
  (network : Fetch.Request -> Fetch.Outcome) (w : Browser) :
  (forall textInput : string,
     write_failed (network (create_request textInput)) ->
     createData network textInput w
     = (Fulfilled VUndefined,
        {| document := document w;
           logged := logged w
                     ++ [match network (create_request textInput) with
                         | Fetch.Fails e => e
                         | Fetch.Responds _ => Error "Failed to create todo"
                         end];
           requests := requests w ++ [create_request textInput] |}))
  /\ (forall todo input : Element,
        querySelector todo "form input" = Some input ->
        write_failed (network (update_request todo (value input))) ->
        updateData network todo w
        = (Fulfilled VUndefined,
           {| document := document w;
              logged := logged w
                        ++ [match network (update_request todo (value input)) with
                            | Fetch.Fails e => e
                            | Fetch.Responds _ => Error "Failed to update todo"
                            end];
              requests := requests w ++ [update_request todo (value input)] |}))
  /\ (forall todo : Element,
        write_failed (network (delete_request todo)) ->
        deleteData network todo w
        = (Fulfilled VUndefined,
           {| document := document w;
              logged := logged w
                        ++ [match network (delete_request todo) with
                            | Fetch.Fails e => e
                            | Fetch.Responds _ => Error "Failed to delete todo"
                            end];
              requests := requests w ++ [delete_request todo] |})).
Proof.
  split; [|split].
  - intros textInput Hfailed. rewrite createData_settled.
    destruct (network (create_request textInput)) as [e|r];
      cbn [write_failed] in Hfailed; [reflexivity|].
    rewrite Hfailed. reflexivity.
  - intros todo input Hinput Hfailed. rewrite (updateData_settled _ _ _ _ Hinput).
    destruct (network (update_request todo (value input))) as [e|r];
      cbn [write_failed] in Hfailed; [reflexivity|].
    rewrite Hfailed. reflexivity.
  - intros todo Hfailed. rewrite deleteData_settled.
    destruct (network (delete_request todo)) as [e|r];
      cbn [write_failed] in Hfailed; [reflexivity|].
    rewrite Hfailed. reflexivity.
Qed.

Lemma failed_write_only_logs_witness :
  createData failing_server "buy milk" page
  = (Fulfilled VUndefined,
     {| document := document page;
        logged := [Error "Failed to create todo"];
        requests := [create_request "buy milk"] |})
  /\ updateData failing_server item page
     = (Fulfilled VUndefined,
        {| document := document page;
           logged := [Error "Failed to update todo"];
           requests := [update_request item "buy oat milk"] |})
  /\ deleteData offline item page
     = (Fulfilled VUndefined,
        {| document := document page;
           logged := [NetworkFailure "Failed to fetch"];
           requests := [delete_request item] |}).
Proof.
  split; [|split].
  - destruct (failed_write_only_logs failing_server page) as (Hcreate & _ & _).
    apply (Hcreate "buy milk"). reflexivity.
  - destruct (failed_write_only_logs failing_server page) as (_ & Hupdate & _).
    apply (Hupdate item (mkElement ∅ "buy oat milk" "" ∅)).
    + vm_compute. reflexivity.
    + reflexivity.
  - destruct (failed_write_only_logs offline page) as (_ & _ & Hdelete).
    apply (Hdelete item). exact I.
Defined.

(** ** What the client sends, and what the router makes of it *)

Lemma map_replace_by_id {B} (f : Todo.t -> B) (key : string) (r r' : Todo.t)
  (coll : Collection) :
  find_by_id key coll = Some r -> f r' = f r ->
  map f (replace_by_id key r' coll) = map f coll.
Proof.
  unfold find_by_id. intros Hfind Hf.
  induction coll as [|x coll IH]; cbn in *; [reflexivity|].
  destruct (has_id key x); cbn; [congruence | now rewrite IH].
Qed.

(** An update whose body has no [date] leaves every date. *)
Lemma put_without_date_keeps_dates (parse_datetime : string -> option Z)
  (env : MongoEnv) (b : json) (key : string) (s : Server Collection) :
  "date"%string ∉ keys b ->
  map Todo.date (db (snd (run parse_datetime PUT_todo env
                            {| body := b; params_id := key |} s)))
  = map Todo.date (db s).
Proof.
  intros Hdate. rewrite run_put. cbn [snd db body params_id].
  destruct (mongo_update parse_datetime env (WhereId key) b (db s))
    as [[e|r'] coll'] eqn:Hu; cbn [snd].
  - now apply mongo_update_inl in Hu as ->.
  - apply mongo_update_inr in Hu as (k & ui & r & [= <-] & Hdec & _ & Hfind & -> & ->).
    apply decode_update_Some in Hdec as (m & -> & _ & Hnodate & _).
    cbn [keys] in Hdate. apply not_elem_of_dom in Hdate.
    apply (map_replace_by_id _ _ r); [assumption|].
    cbn. now rewrite (Hnodate Hdate).
Qed.

Lemma sent_by_sent_request {A} (p : Promise A) (w : Browser) (v : Settled A)
  (req : Fetch.Request) (w' : Browser) :
  p w = (v, w') -> requests w' = requests w ++ [req] -> sent_by p w = [req].
Proof.
  intros Hp Hreq. unfold sent_by. rewrite Hp. cbn [snd]. rewrite Hreq.
  now rewrite drop_app_length.
Qed.

Lemma sent_by_nothing {A} (p : Promise A) (w : Browser) (v : Settled A) :
  p w = (v, w) -> sent_by p w = [].
Proof.
  intros Hp. unfold sent_by. rewrite Hp. cbn [snd]. now rewrite drop_all.
Qed.

Lemma createData_sends (network : Fetch.Request -> Fetch.Outcome)
  (textInput : string) (w : Browser) :
  sent_by (createData network textInput) w = [create_request textInput].
Proof.
  pose proof (createData_settled network textInput w) as H.
  destruct (network (create_request textInput)) as [e|r];
    [|destruct (Fetch.ok r); [destruct (Fetch.parsed r)|]];
    now apply (sent_by_sent_request _ _ _ _ _ H).
Qed.

Lemma updateData_sends (network : Fetch.Request -> Fetch.Outcome)
  (todo : Element) (w : Browser) :
  sent_by (updateData network todo) w
  = match querySelector todo "form input" with
    | Some input => [update_request todo (value input)]
    | None => []
    end.
Proof.
  destruct (querySelector todo "form input") as [input|] eqn:Hinput.
  - pose proof (updateData_settled network todo input w Hinput) as H.
    destruct (network (update_request todo (value input))) as [e|r];
      [|destruct (Fetch.ok r); [destruct (Fetch.parsed r)|]];
      now apply (sent_by_sent_request _ _ _ _ _ H).
  - apply (sent_by_nothing _ _ _ (updateData_no_input network todo w Hinput)).
Qed.

(** C9: whatever the page and the network, every request [createData] sends
    and every request [updateData] sends (for every element) has a body with
    exactly one key, [content]; a body with that one key carries no [id] and
    no [date], so a PUT /todo/:id with it leaves the date of every stored
    record, and the record a successful POST /todo with it creates has the id
    the engine generated and the date of the engine's clock. *)
Theorem client_bodies_carry_only_content
  (network : Fetch.Request -> Fetch.Outcome) (w : Browser) :
  (forall (textInput : string) (req : Fetch.Request),
     req ∈ sent_by (createData network textInput) w ->
     exists b, Fetch.body req = Some b /\ keys b = {[ "content"%string ]})
  /\ (forall (todo : Element) (req : Fetch.Request),
        req ∈ sent_by (updateData network todo) w ->
        exists b, Fetch.body req = Some b /\ keys b = {[ "content"%string ]})
  /\ (forall b : json,
        keys b = {[ "content"%string ]} ->
        (("id"%string ∉ keys b) /\ ("date"%string ∉ keys b))
        /\ (forall (parse_datetime : string -> option Z) (env : MongoEnv)
              (key : string) (s : Server Collection),
              map Todo.date
                (db (snd (run parse_datetime PUT_todo env
                            {| body := b; params_id := key |} s)))
              = map Todo.date (db s))
        /\ (forall (parse_datetime : string -> option Z) (env : MongoEnv)
              (p : string) (s s' : Server Collection) (res : Response),
              run parse_datetime POST_todo env {| body := b; params_id := p |} s
              = (inr res, s') ->
              status res = 200 ->
              exists r : Todo.t,
                sent res = Some (OfTodo r)
                /\ Todo.id r = objectid_of (auto env)
                /\ Todo.date r = now env)).
Proof.
  split; [|split].
  - intros textInput req. rewrite createData_sends. intros ->%list_elem_of_singleton.
    eexists. split; [reflexivity|]. apply dom_singleton_L.
  - intros todo req. rewrite updateData_sends.
    destruct (querySelector todo "form input") as [input|].
    + intros ->%list_elem_of_singleton.
      eexists. split; [reflexivity|]. apply dom_singleton_L.
    + intros H. now apply elem_of_nil in H.
  - intros b Hkeys.
    assert (("id"%string ∉ keys b) /\ ("date"%string ∉ keys b)) as [Hid Hdate].
    { rewrite Hkeys. split; apply not_elem_of_singleton; discriminate. }
    split; [split; assumption|]. split.
    + intros parse_datetime env key s. now apply put_without_date_keeps_dates.
    + intros parse_datetime env p s s' res Hpost H200.
      destruct (run_post_200 _ _ _ _ _ _ Hpost H200)
        as (ci & r & Hdec & Hsent & Hkey & _ & _ & Hd & _).
      cbn [body] in Hdec.
      apply decode_create_Some in Hdec as (m & -> & _ & Hnoid & Hnodate).
      cbn [keys] in Hid, Hdate. apply not_elem_of_dom in Hid, Hdate.
      rewrite (Hnoid Hid) in Hkey. rewrite (Hnodate Hdate) in Hd.
      exists r. now repeat split.
Qed.

Lemma client_bodies_carry_only_content_witness :
  exists b,
    Fetch.body (update_request item "buy oat milk") = Some b
    /\ keys b = {[ "content"%string ]}.
Proof.
  destruct (client_bodies_carry_only_content failing_server page) as (_ & Hupdate & _).
  apply (Hupdate item). vm_compute. apply list_elem_of_here.
Defined.

(** C10 (as amended): whatever the network does, [createData] and
    [deleteData] are fulfilled, never rejected; so is [updateData] on an
    element that has a form input below it, and [readData] on a page that has
    the "#notices" element.  Each is fulfilled with the parsed body when the
    response is a success, a write with [undefined] and the read with the
    empty array otherwise. *)
Theorem client_promises_are_fulfilled
  (network : Fetch.Request -> Fetch.Outcome) (w : Browser) :
  (forall textInput : string,
     exists (v : Value) (w' : Browser),
       createData network textInput w = (Fulfilled v, w')
       /\ settles_as (network (create_request textInput)) VUndefined v)
  /\ (forall todo : Element,
        exists (v : Value) (w' : Browser),
          deleteData network todo w = (Fulfilled v, w')
          /\ settles_as (network (delete_request todo)) VUndefined v)
  /\ (forall todo input : Element,
        querySelector todo "form input" = Some input ->
        exists (v : Value) (w' : Browser),
          updateData network todo w = (Fulfilled v, w')
          /\ settles_as (network (update_request todo (value input))) VUndefined v)
  /\ (forall notices : Element,
        querySelector (document w) "#notices" = Some notices ->
        exists (v : Value) (w' : Browser),
          readData network w = (Fulfilled v, w')
          /\ settles_as (network todos_request) (VJson (JArr [])) v).
Proof.
  split; [|split; [|split]].
  - intros textInput. rewrite createData_settled. unfold settles_as.
    destruct (network (create_request textInput)) as [e|r]; [eauto|].
    destruct (Fetch.ok r); [|eauto]. destruct (Fetch.parsed r); eauto.
  - intros todo. rewrite deleteData_settled. unfold settles_as.
    destruct (network (delete_request todo)) as [e|r]; [eauto|].
    destruct (Fetch.ok r); [|eauto]. destruct (Fetch.parsed r); eauto.
  - intros todo input Hinput. rewrite (updateData_settled _ _ _ _ Hinput).
    unfold settles_as.
    destruct (network (update_request todo (value input))) as [e|r]; [eauto|].
    destruct (Fetch.ok r); [|eauto]. destruct (Fetch.parsed r); eauto.
  - intros notices Hnotices. rewrite (readData_settled _ _ _ Hnotices).
    unfold settles_as.
    destruct (network todos_request) as [e|r]; [eauto|].
    destruct (Fetch.ok r); [|eauto]. destruct (Fetch.parsed r); eauto.
Qed.

Lemma client_promises_are_fulfilled_witness :
  exists (v : Value) (w' : Browser),
    updateData offline item page = (Fulfilled v, w')
    /\ settles_as (offline (update_request item "buy oat milk")) VUndefined v.
Proof.
  destruct (client_promises_are_fulfilled offline page) as (_ & _ & Hupdate & _).
  apply (Hupdate item (mkElement ∅ "buy oat milk" "" ∅)). vm_compute. reflexivity.
Defined.

(** C10, the claim as stated fails: [updateData] on an element with no form
    input below it is rejected (reading [value] of [null] throws before any
    request is sent, so no handler of the chain sees it); and [readData] on a
    page without "#notices" is rejected when the request fails (the handler
    that catches the failure throws in turn). *)
Lemma client_promise_rejected_counterexample :
  updateData offline bare_item page
  = (Rejected (TypeError "Cannot read properties of null (reading 'value')"), page)
  /\ fst (readData offline
            {| document := mkElement ∅ "" "" ∅; logged := []; requests := [] |})
     = Rejected (TypeError "Cannot read properties of null (reading 'style')").
Proof. split; vm_compute; reflexivity. Qed.

(* ===================================================================== *)
(** * Part VI: further properties of the router and the client *)
(* ===================================================================== *)

(** ** The router over any storage engine *)

(** X1: on each endpoint, over any storage engine, when the storage call
    returns a result the handler sends exactly that result under status 200,
    and the database is left as that one call left it. *)
Theorem storage_result_is_status_200
  {DB Env : Type} `{prisma : PrismaClient DB Env}
  (ep : Endpoint) (env : Env) (req : Request) (s : Server DB) (x : Payload) :
  fst (storage_call ep env req (db s)) = inr x ->
  exists s' : Server DB,
    serve ep env req s = (inr {| status := 200; sent := Some x |}, s')
    /\ db s' = snd (storage_call ep env req (db s)).
Proof.
  intros Hreturn. rewrite serve_unfold, Hreturn. cbn. eauto.
Qed.

Lemma storage_result_is_status_200_witness :
  exists s' : Server Collection,
    serve (prisma := mongo sample_datetime) GET_todos (up 300 3) empty_request two_todos
    = (inr {| status := 200; sent := Some (OfTodos [dog; milk]) |}, s')
    /\ db s' = snd (storage_call (prisma := mongo sample_datetime) GET_todos (up 300 3)
                      empty_request (db two_todos)).
Proof.
  apply (storage_result_is_status_200 (prisma := mongo sample_datetime)).
  vm_compute. reflexivity.
Defined.

(** X2: on each endpoint, over any storage engine, for every request the
    handler returns a response that was sent, and the status tells the
    outcome of the storage call: 500 exactly when the call threw, 200 exactly
    when it returned. *)
Theorem status_tells_the_outcome
  {DB Env : Type} `{prisma : PrismaClient DB Env}
  (ep : Endpoint) (env : Env) (req : Request) (s : Server DB) :
  exists (res : Response) (s' : Server DB),
    serve ep env req s = (inr res, s')
    /\ is_Some (sent res)
    /\ (status res = 500 <-> exists err, fst (storage_call ep env req (db s)) = inl err)
    /\ (status res = 200 <-> exists x, fst (storage_call ep env req (db s)) = inr x).
Proof.
  rewrite serve_unfold. eexists _, _. split; [reflexivity|].
  destruct (fst (storage_call ep env req (db s))) as [err|x]; cbn.
  - split; [eauto|]. split; split; try (intros; eauto; fail).
    + discriminate.
    + intros [x Hx]. discriminate.
  - split; [eauto|]. split; split; try (intros; eauto; fail).
    + discriminate.
    + intros [err Herr]. discriminate.
Qed.

Lemma serve_console {DB Env : Type} `{prisma : PrismaClient DB Env}
  (ep : Endpoint) (env : Env) (req : Request) (s : Server DB) :
  console (snd (serve ep env req s)) = console_after ep req (console s).
Proof. now rewrite serve_unfold. Qed.

(** X3: over any storage engine and for any sequence of requests, the console
    of the server grows by exactly the bodies of the POST /todo requests, in
    their order: each is logged whether or not its create succeeds, and no
    other endpoint logs. *)
Theorem console_holds_the_posted_bodies
  {DB Env : Type} `{prisma : PrismaClient DB Env}
  (calls : list (Endpoint * Env * Request)) (s : Server DB) :
  console (serve_all calls s) = console s ++ posted calls.
Proof.
  revert s. induction calls as [|[[ep env] req] rest IH]; intros s; cbn [serve_all].
  - cbn. now rewrite app_nil_r.
  - rewrite IH, serve_console. unfold posted. cbn [flat_map].
    destruct ep; cbn [console_after]; now rewrite <- ?app_assoc.
Qed.

(** ** The client: what is sent *)

(** [readData] on a page without the notice, settled. *)
Lemma readData_no_notice (network : Fetch.Request -> Fetch.Outcome) (w : Browser) :
  querySelector (document w) "#notices" = None ->
  readData network w
  = match network todos_request with
    | Fetch.Fails e =>
        (Rejected (TypeError "Cannot read properties of null (reading 'style')"),
         logged_error e (sent_request todos_request w))
    | Fetch.Responds r =>
        if Fetch.ok r then
          match Fetch.parsed r with
          | Some j => (Fulfilled (VJson j), sent_request todos_request w)
          | None =>
              (Rejected (TypeError "Cannot read properties of null (reading 'style')"),
               logged_error SyntaxError (sent_request todos_request w))
          end
        else
          (Rejected (TypeError "Cannot read properties of null (reading 'style')"),
           logged_error (TypeError "Cannot read properties of null (reading 'style')")
             (sent_request todos_request w))
    end.
Proof.
  intros Hnone. unfold readData, catch_, then_, fetch.
  destruct (network todos_request) as [e|r].
  - unfold console_log_err, set_display. cbn [document logged_error sent_request].
    now rewrite Hnone.
  - destruct (Fetch.ok r); cbn [negb].
    + unfold response_json. destruct (Fetch.parsed r); cbn [reject resolve].
      * reflexivity.
      * unfold console_log_err, set_display. cbn [document logged_error sent_request].
        now rewrite Hnone.
    + unfold set_display at 1. cbn [document sent_request]. rewrite Hnone.
      unfold console_log_err, set_display. cbn [document logged_error sent_request].
      now rewrite Hnone.
Qed.

Lemma readData_requests (network : Fetch.Request -> Fetch.Outcome) (w : Browser) :
  requests (snd (readData network w)) = requests w ++ [todos_request].
Proof.
  destruct (querySelector (document w) "#notices") as [notices|] eqn:Hq.
  - rewrite (readData_settled _ _ _ Hq).
    destruct (network todos_request) as [e|r];
      [|destruct (Fetch.ok r); [destruct (Fetch.parsed r)|]]; reflexivity.
  - rewrite (readData_no_notice _ _ Hq).
    destruct (network todos_request) as [e|r];
      [|destruct (Fetch.ok r); [destruct (Fetch.parsed r)|]]; reflexivity.
Qed.

Lemma deleteData_sends (network : Fetch.Request -> Fetch.Outcome)
  (todo : Element) (w : Browser) :
  sent_by (deleteData network todo) w = [delete_request todo].
Proof.
  pose proof (deleteData_settled network todo w) as H.
  destruct (network (delete_request todo)) as [e|r];
    [|destruct (Fetch.ok r); [destruct (Fetch.parsed r)|]];
    now apply (sent_by_sent_request _ _ _ _ _ H).
Qed.

(** X5: whatever the network answers and whatever the page, each client
    function sends its request once and never again (no retry on a failure):
    [createData], [readData] and [deleteData] send exactly one request, and
    [updateData] exactly one when the item has a form input and none
    otherwise. *)
Theorem each_call_sends_one_request
  (network : Fetch.Request -> Fetch.Outcome) (w : Browser) :
  (forall textInput : string,
     sent_by (createData network textInput) w = [create_request textInput])
  /\ sent_by (readData network) w = [todos_request]
  /\ (forall todo : Element,
        sent_by (deleteData network todo) w = [delete_request todo])
  /\ (forall todo : Element,
        sent_by (updateData network todo) w
        = match querySelector todo "form input" with
          | Some input => [update_request todo (value input)]
          | None => []
          end).
Proof.
  split; [|split; [|split]].
  - intros textInput. apply createData_sends.
  - unfold sent_by. rewrite readData_requests. now rewrite drop_app_length.
  - intros todo. apply deleteData_sends.
  - intros todo. apply updateData_sends.
Qed.

(** ** The client: how a write settles *)

(** A write that sent [req], settled. *)
Lemma write_settled (network : Fetch.Request -> Fetch.Outcome) (c : WriteCall)
  (w : Browser) (req : Fetch.Request) :
  requests (snd (write network c w)) = requests w ++ [req] ->
  write network c w
  = match network req with
    | Fetch.Fails e => (Fulfilled VUndefined, logged_error e (sent_request req w))
    | Fetch.Responds r =>
        if Fetch.ok r then
          match Fetch.parsed r with
          | Some j => (Fulfilled (VJson j), sent_request req w)
          | None => (Fulfilled VUndefined, logged_error SyntaxError (sent_request req w))
          end
        else (Fulfilled VUndefined,
              logged_error (Error (write_message c)) (sent_request req w))
    end.
Proof.
  assert (forall (req0 : Fetch.Request) (message : string) (p : Promise Value),
    p w = match network req0 with
          | Fetch.Fails e => (Fulfilled VUndefined, logged_error e (sent_request req0 w))
          | Fetch.Responds r =>
              if Fetch.ok r then
                match Fetch.parsed r with
                | Some j => (Fulfilled (VJson j), sent_request req0 w)
                | None =>
                    (Fulfilled VUndefined,
                     logged_error SyntaxError (sent_request req0 w))
                end
              else (Fulfilled VUndefined,
                    logged_error (Error message) (sent_request req0 w))
          end ->
    requests (snd (p w)) = requests w ++ [req] -> req0 = req) as Hsame.
  { intros req0 message p Hp Hsent. rewrite Hp in Hsent.
    destruct (network req0) as [e|r];
      [|destruct (Fetch.ok r); [destruct (Fetch.parsed r)|]];
      cbn in Hsent; now apply app_inj_tail in Hsent as [_ ?]. }
  destruct c as [textInput|todo|todo]; cbn [write write_message]; intros Hsent.
  - pose proof (createData_settled network textInput w) as Hp.
    now rewrite <- (Hsame _ _ _ Hp Hsent).
  - destruct (querySelector todo "form input") as [input|] eqn:Hinput.
    + pose proof (updateData_settled network todo input w Hinput) as Hp.
      now rewrite <- (Hsame _ _ _ Hp Hsent).
    + rewrite (updateData_no_input network todo w Hinput) in Hsent. cbn [snd] in Hsent.
      exfalso. apply (f_equal length) in Hsent.
      rewrite length_app in Hsent. cbn in Hsent. lia.
  - pose proof (deleteData_settled network todo w) as Hp.
    now rewrite <- (Hsame _ _ _ Hp Hsent).
Qed.

(** X7: when a write ([createData], [updateData] or [deleteData]) sent its
    request and the response is a success whose body is JSON, the promise is
    fulfilled with the parsed body and nothing else happened: nothing was
    logged and the document is as it was. *)
Theorem successful_write_is_silent
  (network : Fetch.Request -> Fetch.Outcome) (c : WriteCall) (w : Browser)
  (req : Fetch.Request) (r : Fetch.Response) (j : json) :
  requests (snd (write network c w)) = requests w ++ [req] ->
  network req = Fetch.Responds r ->
  Fetch.ok r = true ->
  Fetch.parsed r = Some j ->
  write network c w
  = (Fulfilled (VJson j),
     {| document := document w; logged := logged w; requests := requests w ++ [req] |}).
Proof.
  intros Hsent Hr Hok Hj. rewrite (write_settled _ _ _ _ Hsent), Hr, Hok, Hj.
  reflexivity.
Qed.

Lemma successful_write_is_silent_witness :
  write working_server (Delete item) page
  = (Fulfilled (VJson (JArr [])),
     {| document := document page; logged := logged page;
        requests := requests page ++ [delete_request item] |}).
Proof.
  apply (successful_write_is_silent working_server (Delete item) page
           (delete_request item) {| Fetch.status := 200; Fetch.parsed := Some (JArr []) |}).
  - vm_compute. reflexivity.
  - reflexivity.
  - reflexivity.
  - reflexivity.
Defined.

(** X8: when a write sent its request, what it logged is exactly what its
    [catch] handler caught: the error of the network when the request failed,
    the error "Failed to create todo" (or "update", or "delete", by the
    function) when the status is no success, a syntax error when the status
    is a success but the body is no JSON, and nothing otherwise. *)
Theorem write_logs_what_it_catches
  (network : Fetch.Request -> Fetch.Outcome) (c : WriteCall) (w : Browser)
  (req : Fetch.Request) :
  requests (snd (write network c w)) = requests w ++ [req] ->
  logged (snd (write network c w)) = logged w ++ caught_by_write c (network req).
Proof.
  intros Hsent. rewrite (write_settled _ _ _ _ Hsent). unfold caught_by_write.
  destruct (network req) as [e|r];
    [|destruct (Fetch.ok r); [destruct (Fetch.parsed r)|]];
    cbn; now rewrite ?app_nil_r.
Qed.

Lemma write_logs_what_it_catches_witness :
  logged (snd (write failing_server (Create "buy milk") page))
  = logged page ++ caught_by_write (Create "buy milk")
                     (failing_server (create_request "buy milk")).
Proof.
  apply (write_logs_what_it_catches failing_server (Create "buy milk") page
           (create_request "buy milk")).
  vm_compute. reflexivity.
Defined.

(** A write only appends: to the requests sent and to the console. *)
Lemma write_page (network : Fetch.Request -> Fetch.Outcome) (c : WriteCall)
  (w : Browser) :
  exists (errs : list Exn) (reqs : list Fetch.Request),
    snd (write network c w)
    = {| document := document w; logged := logged w ++ errs;
         requests := requests w ++ reqs |}.
Proof.
  assert (forall req e,
    exists (errs : list Exn) (reqs : list Fetch.Request),
      logged_error e (sent_request req w)
      = {| document := document w; logged := logged w ++ errs;
           requests := requests w ++ reqs |}) as Hlogged
    by (intros req e; now exists [e], [req]).
  assert (forall req,
    exists (errs : list Exn) (reqs : list Fetch.Request),
      sent_request req w
      = {| document := document w; logged := logged w ++ errs;
           requests := requests w ++ reqs |}) as Hsent
    by (intros req; exists [], [req]; unfold sent_request; now rewrite app_nil_r).
  destruct c as [textInput|todo|todo]; cbn [write].
  - rewrite createData_settled.
    destruct (network (create_request textInput)) as [e|r];
      [|destruct (Fetch.ok r); [destruct (Fetch.parsed r)|]]; cbn [snd]; auto.
  - destruct (querySelector todo "form input") as [input|] eqn:Hinput.
    + rewrite (updateData_settled _ _ _ _ Hinput).
      destruct (network (update_request todo (value input))) as [e|r];
        [|destruct (Fetch.ok r); [destruct (Fetch.parsed r)|]]; cbn [snd]; auto.
    + rewrite (updateData_no_input _ _ _ Hinput). cbn [snd].
      exists [], []. rewrite !app_nil_r. now destruct w.
  - rewrite deleteData_settled.
    destruct (network (delete_request todo)) as [e|r];
      [|destruct (Fetch.ok r); [destruct (Fetch.parsed r)|]]; cbn [snd]; auto.
Qed.

(** X9: no write ever changes the document, whatever the outcome of its
    request: not on a success, not on a failure, and not when [updateData] is
    rejected for want of a form input; a write only adds to the requests sent
    and to the console, and never takes from them. *)
Theorem writes_never_touch_the_document
  (network : Fetch.Request -> Fetch.Outcome) (c : WriteCall) (w : Browser) :
  document (snd (write network c w)) = document w
  /\ logged w `prefix_of` logged (snd (write network c w))
  /\ requests w `prefix_of` requests (snd (write network c w)).
Proof.
  destruct (write_page network c w) as (errs & reqs & ->). cbn.
  split; [reflexivity|]. split; apply prefix_app_r; reflexivity.
Qed.

(** X10: [updateData] is rejected exactly when the item has no form input
    below it; it then leaves the page as it was: no request is sent and
    nothing is logged. *)
Theorem updateData_rejected_iff
  (network : Fetch.Request -> Fetch.Outcome) (todo : Element) (w : Browser) :
  ((exists e w', updateData network todo w = (Rejected e, w'))
   <-> querySelector todo "form input" = None)
  /\ (forall e w', updateData network todo w = (Rejected e, w') -> w' = w).
Proof.
  destruct (querySelector todo "form input") as [input|] eqn:Hinput.
  - rewrite (updateData_settled _ _ _ _ Hinput).
    split; [split; [|discriminate]|];
      destruct (network (update_request todo (value input))) as [e|r];
      [|destruct (Fetch.ok r); [destruct (Fetch.parsed r)|]| |
        destruct (Fetch.ok r); [destruct (Fetch.parsed r)|]];
      try (intros (e0 & w' & H); discriminate);
      intros e0 w' H; discriminate.
  - rewrite (updateData_no_input _ _ _ Hinput). split.
    + split; [reflexivity | eauto].
    + now intros e w' [= _ <-].
Qed.

(** ** The client: the read and the notice *)

(** X11: [readData] is rejected exactly when the page has no "#notices"
    element and the read failed (the network failed, the status is no
    success, or the body is no JSON): the handler that would show the notice
    then throws.  On a page without the notice a successful read is still
    fulfilled. *)
Theorem readData_rejected_iff
  (network : Fetch.Request -> Fetch.Outcome) (w : Browser) :
  (exists e w', readData network w = (Rejected e, w'))
  <-> querySelector (document w) "#notices" = None
      /\ read_failed (network todos_request).
Proof.
  destruct (querySelector (document w) "#notices") as [notices|] eqn:Hq.
  - rewrite (readData_settled _ _ _ Hq). split; [|intros [? _]; discriminate].
    intros (e & w' & H). exfalso.
    destruct (network todos_request) as [e0|r];
      [|destruct (Fetch.ok r); [destruct (Fetch.parsed r)|]]; discriminate.
  - rewrite (readData_no_notice _ _ Hq). unfold read_failed.
    destruct (network todos_request) as [e0|r].
    + split; [intros _; now split | eauto].
    + destruct (Fetch.ok r) eqn:Hok; [destruct (Fetch.parsed r) eqn:Hj|].
      * split; [intros (e & w' & H); discriminate|].
        intros [_ [H|H]]; discriminate.
      * split; [intros _; split; [reflexivity | now right] | eauto].
      * split; [intros _; split; [reflexivity | now left] | eauto].
Qed.

(** X12: on a page that has the notice, [readData] logs exactly what its
    [catch] handler caught: the error of the network when the request failed,
    a syntax error when the status is a success but the body is no JSON, and
    nothing otherwise; in particular a status that is no success is not
    logged (the [then] handler deals with it), unlike for a write. *)
Theorem readData_logs_what_it_catches
  (network : Fetch.Request -> Fetch.Outcome) (w : Browser) (notices : Element) :
  querySelector (document w) "#notices" = Some notices ->
  logged (snd (readData network w)) = logged w ++ caught_by_read (network todos_request).
Proof.
  intros Hq. rewrite (readData_settled _ _ _ Hq). unfold caught_by_read.
  destruct (network todos_request) as [e|r];
    [|destruct (Fetch.ok r); [destruct (Fetch.parsed r)|]];
    cbn; now rewrite ?app_nil_r.
Qed.

Lemma readData_logs_what_it_catches_witness :
  logged (snd (readData failing_server page))
  = logged page ++ caught_by_read (failing_server todos_request).
Proof.
  apply (readData_logs_what_it_catches failing_server page hidden_notice).
  vm_compute. reflexivity.
Defined.

Lemma with_display_self (selector v : string) (el : Element) :
  dataset (with_display selector v el) = dataset el
  /\ value (with_display selector v el) = value el
  /\ display (with_display selector v el) = display el.
Proof.
  unfold with_display. destruct (query el !! selector); repeat split.
Qed.

Lemma with_display_target (selector v : string) (el target : Element) :
  querySelector el selector = Some target ->
  querySelector (with_display selector v el) selector
  = Some (mkElement (dataset target) (value target) v (query target)).
Proof.
  unfold querySelector, with_display. intros ->. cbn [query].
  now rewrite lookup_insert_eq.
Qed.

(** The document after a read: as before when the read succeeded or the page
    has no notice, and with the notice shown otherwise. *)
Lemma readData_document (network : Fetch.Request -> Fetch.Outcome) (w : Browser) :
  (document (snd (readData network w)) = document w
   /\ (querySelector (document w) "#notices" = None
       \/ ~ read_failed (network todos_request)))
  \/ (document (snd (readData network w))
      = with_display "#notices" "block" (document w)
      /\ is_Some (querySelector (document w) "#notices")
      /\ read_failed (network todos_request)).
Proof.
  destruct (querySelector (document w) "#notices") as [notices|] eqn:Hq.
  - rewrite (readData_settled _ _ _ Hq). unfold read_failed.
    destruct (network todos_request) as [e|r].
    + right. cbn. eauto.
    + destruct (Fetch.ok r) eqn:Hok; [destruct (Fetch.parsed r) eqn:Hj|].
      * left. cbn. split; [reflexivity|]. right. intros [H|H]; discriminate.
      * right. cbn. eauto.
      * right. cbn. eauto.
  - left. split; [|now left]. rewrite (readData_no_notice _ _ Hq).
    destruct (network todos_request) as [e|r];
      [|destruct (Fetch.ok r); [destruct (Fetch.parsed r)|]]; reflexivity.
Qed.

(** X13: whatever the outcome, [readData] leaves the document's own
    attributes and the attributes, value and content of the "#notices"
    element as they were; of the notice it sets the display only, to "block"
    when the read failed, and leaves the display as it was when the read did
    not fail: a read that succeeds neither shows the notice nor hides it.  On
    a page without the notice there is none afterwards. *)
Theorem readData_sets_only_the_display_of_the_notice
  (network : Fetch.Request -> Fetch.Outcome) (w : Browser) :
  let d := document w in
  let d' := document (snd (readData network w)) in
  dataset d' = dataset d /\ value d' = value d /\ display d' = display d
  /\ match querySelector d "#notices" with
     | None => querySelector d' "#notices" = None
     | Some n =>
         exists n' : Element,
           querySelector d' "#notices" = Some n'
           /\ dataset n' = dataset n /\ value n' = value n /\ query n' = query n
           /\ ((read_failed (network todos_request) /\ display n' = "block"%string)
               \/ (~ read_failed (network todos_request) /\ display n' = display n))
     end.
Proof.
  cbn zeta.
  destruct (readData_document network w) as [[-> Hwhy] | (-> & [n Hn] & Hfailed)].
  - repeat split.
    destruct (querySelector (document w) "#notices") as [n|] eqn:Hq; [|reflexivity].
    exists n. repeat split. right. split; [|reflexivity].
    destruct Hwhy as [Hnone | Hok]; [discriminate | assumption].
  - destruct (with_display_self "#notices" "block" (document w)) as (Hd & Hv & Hs).
    split; [assumption|]. split; [assumption|]. split; [assumption|].
    rewrite Hn. eexists. split; [apply (with_display_target _ _ _ n); exact Hn|].
    cbn [dataset value display query]. repeat split.
    left. split; [exact Hfailed | reflexivity].
Qed.

Lemma client_call_notice (network : Fetch.Request -> Fetch.Outcome) (c : ClientCall)
  (w : Browser) :
  notice_display w = Some "block"%string ->
  notice_display (snd (client_call network c w)) = Some "block"%string.
Proof.
  unfold notice_display. intros Hshown. destruct c as [|c]; cbn [client_call].
  - destruct (readData_document network w) as [[-> _] | (-> & [n Hn] & _)];
      [assumption|].
    now rewrite (with_display_target _ _ _ _ Hn).
  - destruct (write_page network c w) as (errs & reqs & ->). assumption.
Qed.

(** X14: once the notice is shown it stays shown: after any sequence of calls
    of the four client functions, whatever the network does at each, a
    "#notices" element whose display was "block" still has the display
    "block"; no call hides it again, not even a later read that succeeds. *)
Theorem shown_notice_stays_shown
  (calls : list ((Fetch.Request -> Fetch.Outcome) * ClientCall)) (w : Browser) :
  notice_display w = Some "block"%string ->
  notice_display (perform calls w) = Some "block"%string.
Proof.
  revert w. induction calls as [|[network c] rest IH]; intros w Hshown;
    cbn [perform]; [assumption|].
  apply IH. now apply client_call_notice.
Qed.

Lemma shown_notice_stays_shown_witness :
  notice_display
    (perform [(working_server, Read); (offline, Written (Delete item))]
       page_with_notice_shown)
  = Some "block"%string.
Proof.
  apply (shown_notice_stays_shown
           [(working_server, Read); (offline, Written (Delete item))]
           page_with_notice_shown).
  vm_compute. reflexivity.
Defined.

(** ** The router and the client together *)

(** X15: the two statuses of the router fall on the two sides of
    [response.ok]: over any storage engine, a response of the client that
    carries the status the router sent is not [ok] exactly when the storage
    call threw, and [ok] exactly when it returned; so every storage failure
    reaches the client as a failed write or read, and no success does unless
    its body fails to parse. *)
Theorem router_failure_is_client_failure
  {DB Env : Type} `{prisma : PrismaClient DB Env}
  (ep : Endpoint) (env : Env) (req : Request) (s s' : Server DB) (res : Response)
  (r : Fetch.Response) :
  serve ep env req s = (inr res, s') ->
  Fetch.status r = status res ->
  (Fetch.ok r = false <-> exists err, fst (storage_call ep env req (db s)) = inl err)
  /\ (Fetch.ok r = true <-> exists x, fst (storage_call ep env req (db s)) = inr x)
  /\ (write_failed (Fetch.Responds r)
      <-> exists err, fst (storage_call ep env req (db s)) = inl err).
Proof.
  rewrite serve_unfold. intros [= <- _] Hstatus.
  unfold write_failed, Fetch.ok. rewrite Hstatus.
  destruct (fst (storage_call ep env req (db s))) as [err|x]; cbn.
  - split; [|split]; split; eauto; try discriminate; intros [x Hx]; discriminate.
  - split; [|split]; split; eauto; try discriminate; intros [err Herr]; discriminate.
Qed.

Lemma router_failure_is_client_failure_witness :
  (Fetch.ok {| Fetch.status := 500; Fetch.parsed := None |} = false
   <-> exists err,
         fst (storage_call (prisma := mongo sample_datetime) DELETE_todo (up 300 3)
                (delete_of "undefined") (db two_todos)) = inl err)
  /\ (Fetch.ok {| Fetch.status := 500; Fetch.parsed := None |} = true
      <-> exists x,
            fst (storage_call (prisma := mongo sample_datetime) DELETE_todo (up 300 3)
                   (delete_of "undefined") (db two_todos)) = inr x)
  /\ (write_failed (Fetch.Responds {| Fetch.status := 500; Fetch.parsed := None |})
      <-> exists err,
            fst (storage_call (prisma := mongo sample_datetime) DELETE_todo (up 300 3)
                   (delete_of "undefined") (db two_todos)) = inl err).
Proof.
  apply (router_failure_is_client_failure (prisma := mongo sample_datetime)
           DELETE_todo (up 300 3) (delete_of "undefined") two_todos two_todos
           {| status := 500; sent := Some (OfError (MalformedObjectID "undefined")) |}).
  - vm_compute. reflexivity.
  - reflexivity.
Defined.
